(** * transcriptToSbv: the timestamp codec and the caption realigner

    A shallow embedding of [src/transcriptToSbv.py]: the two codec
    functions [timestamp] and [timestampStr], the line loop [adjustSbv]
    and the output file name of the driver.  Python exceptions are values of an error monad, the
    local variables of [adjustSbv] are a record threaded through the
    loop, and the output file is the list of strings written to it.

    Python's [float] is kept abstract (class [PyFloat]): the properties
    of the realigner hold for any implementation of the arithmetic.  The
    concrete scenarios are evaluated on the instance [Binary64], the
    binary64 format of IEEE 754 that a CPython [float] is, with the
    operations of the Standard Library's [SpecFloat] (round to nearest,
    ties to even) and [float()] reading a literal as the nearest
    binary64 number. *)

From Stdlib Require Import ZArith QArith Qabs Bool List String Ascii Lia.
From Stdlib Require Import DecimalString DecimalPos SpecFloat.
Import ListNotations.

Local Open Scope string_scope.
Local Open Scope list_scope.
Local Open Scope Z_scope.

(** ** Exceptions *)

Inductive exn : Type :=
| AssertionError
| ValueError
| OverflowError
| IndexError.

Inductive res (A : Type) : Type :=
| Ok (a : A)
| Raise (e : exn).

Arguments Ok {A} a.
Arguments Raise {A} e.

Definition bind {A B : Type} (m : res A) (k : A -> res B) : res B :=
  match m with
  | Ok a => k a
  | Raise e => Raise e
  end.

Notation "x <- m ;; k" := (bind m (fun x => k))
  (at level 61, m at next level, right associativity).
Notation "' p <- m ;; k" := (bind m (fun p => k))
  (at level 61, p pattern, m at next level, right associativity).

(** [assert cond] *)
Definition assert (b : bool) : res unit :=
  if b then Ok tt else Raise AssertionError.

(** A list comprehension or generator whose body may raise: elements are
    evaluated left to right and the first exception ends it. *)
Fixpoint mapM {A B : Type} (f : A -> res B) (l : list A) : res (list B) :=
  match l with
  | [] => Ok []
  | a :: l' => b <- f a ;; bs <- mapM f l' ;; Ok (b :: bs)
  end.

(** [l[0]] *)
Definition item0 {A : Type} (l : list A) : res A :=
  match l with
  | [] => Raise IndexError
  | a :: _ => Ok a
  end.

(** [l.pop(0)], the list that remains *)
Definition pop0 {A : Type} (l : list A) : res (list A) :=
  match l with
  | [] => Raise IndexError
  | _ :: l' => Ok l'
  end.

Definition raises {A : Type} (m : res A) : Prop := exists e, m = Raise e.

(** ** Python strings

    A [string] is a sequence of code points below 256. *)

Definition code (c : ascii) : N := N_of_ascii c.

(** [c.isspace()], the characters [str.split()] and [float()] skip:
    TAB..CR, FS..US, SPACE, NEL and NBSP. *)
Definition isspace (c : ascii) : bool :=
  let n := code c in
  (((9 <=? n) && (n <=? 13)) || ((28 <=? n) && (n <=? 32))
   || (n =? 133) || (n =? 160))%N.

(** [c.isdigit()]: the decimal digits and the superscripts 1, 2, 3. *)
Definition isdigit (c : ascii) : bool :=
  let n := code c in
  (((48 <=? n) && (n <=? 57)) || (n =? 178) || (n =? 179) || (n =? 185))%N.

Definition is_nil {A : Type} (l : list A) : bool :=
  match l with
  | [] => true
  | _ :: _ => false
  end.

Definition is_empty (s : string) : bool :=
  match s with
  | EmptyString => true
  | String _ _ => false
  end.

(** [s.startswith(c)] for a one-character prefix *)
Definition startswith (s : string) (c : ascii) : bool :=
  match s with
  | EmptyString => false
  | String a _ => Ascii.eqb a c
  end.

(** [c in s] *)
Fixpoint str_mem (c : ascii) (s : string) : bool :=
  match s with
  | EmptyString => false
  | String a s' => Ascii.eqb a c || str_mem c s'
  end.

(** [s.split(sep)] for a one-character separator: the field before the
    first separator and the fields after it. *)
Fixpoint split_on (sep : ascii) (s : string) : string * list string :=
  match s with
  | EmptyString => (EmptyString, [])
  | String c s' =>
      let (h, t) := split_on sep s' in
      if Ascii.eqb c sep then (EmptyString, h :: t) else (String c h, t)
  end.

Definition split (sep : ascii) (s : string) : list string :=
  let (h, t) := split_on sep s in h :: t.

(** [sep.join(l)] *)
Fixpoint join (sep : string) (l : list string) : string :=
  match l with
  | [] => EmptyString
  | [s] => s
  | s :: l' => (s ++ sep ++ join sep l')%string
  end.

Fixpoint lstrip (s : string) : string :=
  match s with
  | EmptyString => EmptyString
  | String c s' => if isspace c then lstrip s' else s
  end.

(** The blanks [float()] skips at both ends of its argument: TAB..CR and
    SPACE, and NEL and NBSP, which it first turns into spaces.  The
    separators FS..US are blanks for [str.split()] only. *)
Definition isspace_float (c : ascii) : bool :=
  let n := code c in
  (((9 <=? n) && (n <=? 13)) || (n =? 32) || (n =? 133) || (n =? 160))%N.

Fixpoint float_lstrip (s : string) : string :=
  match s with
  | EmptyString => EmptyString
  | String c s' => if isspace_float c then float_lstrip s' else s
  end.

Fixpoint float_rstrip (s : string) : string :=
  match s with
  | EmptyString => EmptyString
  | String c s' =>
      match float_rstrip s' with
      | EmptyString =>
          if isspace_float c then EmptyString else String c EmptyString
      | r => String c r
      end
  end.

Definition float_strip (s : string) : string :=
  float_rstrip (float_lstrip s).

(** The leading run of non-blank characters and what follows it. *)
Fixpoint span_token (s : string) : string * string :=
  match s with
  | EmptyString => (EmptyString, EmptyString)
  | String c s' =>
      if isspace c then (EmptyString, s)
      else let (t, r) := span_token s' in (String c t, r)
  end.

(** [s.split(maxsplit=1)]: no token for a blank line, else the first
    token and, when anything but blanks follows it, the remainder. *)
Definition split_ws1 (s : string) : list string :=
  match lstrip s with
  | EmptyString => []
  | s1 =>
      let (tok, rest) := span_token s1 in
      match lstrip rest with
      | EmptyString => [tok]
      | r => [tok; r]
      end
  end.

(** [str(n)] for an integer *)
Definition str_of_int (n : Z) : string := NilZero.string_of_int (Z.to_int n).

Fixpoint repeat_char (c : ascii) (n : nat) : string :=
  match n with
  | O => EmptyString
  | S n' => String c (repeat_char c n')
  end.

(** The format specs [{n:0>w}] and [{n:0<w}]: fill with ["0"] on the left,
    respectively on the right, up to width [w]. *)
Definition fmt_fill_left (w : nat) (n : Z) : string :=
  let s := str_of_int n in
  (repeat_char "0" (w - String.length s) ++ s)%string.

Definition fmt_fill_right (w : nat) (n : Z) : string :=
  let s := str_of_int n in
  (s ++ repeat_char "0" (w - String.length s))%string.

(** The constants of [adjustSbv], and the line terminator. *)
Definition hdrMark : ascii := "#".
Definition timeSep : ascii := ",".
Definition nl : string := String "010" EmptyString.

(** A line as iterating over the input file yields it. *)
Definition line (s : string) : string := (s ++ nl)%string.

(** The three outcomes of step 2 of the loop body for a line that is
    not skipped as header. *)
Inductive line_class : Type :=
| Blank
| Text
| Metadata.

Definition classify (ln : string) : line_class :=
  match split_ws1 ln with
  | [] => Blank
  | tok :: rest =>
      if (2 <=? List.length (tok :: rest))%nat
         || negb (match tok with
                  | String c _ => isdigit c
                  | EmptyString => false
                  end)
      then Text else Metadata
  end.

(** The header comments: the leading lines that start with the mark. *)
Fixpoint skip_header (lines : list string) : list string :=
  match lines with
  | [] => []
  | ln :: lines' => if startswith ln hdrMark then skip_header lines' else lines
  end.

Definition is_text (ln : string) : bool :=
  match classify ln with
  | Text => true
  | _ => false
  end.

(** The caption text of an input: its text lines after the header. *)
Definition caption_text (lines : list string) : list string :=
  filter is_text (skip_header lines).

Definition no_metadata (lines : list string) : Prop :=
  Forall (fun ln => classify ln <> Metadata) lines.

(** ** Floats *)

Class PyFloat (F : Type) : Type := {
  (** [float(s)]; [ValueError] on text that is no number *)
  float_of_str : string -> res F;
  (** the conversion of an [int] operand in mixed arithmetic *)
  of_int : Z -> F;
  (** whether that conversion succeeds ([OverflowError] when not) *)
  int_fits : Z -> bool;
  fadd : F -> F -> F;
  fsub : F -> F -> F;
  fmul : F -> F -> F;
  (** [x >= 0] *)
  fge0 : F -> bool;
  (** [bool(x)] *)
  ftruthy : F -> bool;
  (** [int(x)] *)
  ftrunc : F -> res Z
}.

Section Program.

Context {F : Type} {PF : PyFloat F}.

(** ** [timestamp] *)

(** [float(t) * mul] with [mul] an [int] *)
Definition fmul_int (x : F) (n : Z) : res F :=
  if int_fits n then Ok (fmul x (of_int n)) else Raise OverflowError.

(** The loop of [timestamp] over the reversed fields. *)
Fixpoint timestamp_loop (toks : list string) (ts : F) (mul : Z) : res F :=
  match toks with
  | [] => Ok ts
  | t :: toks' =>
      x <- float_of_str t ;;
      y <- fmul_int x mul ;;
      timestamp_loop toks' (fadd ts y) (mul * 60)
  end.

Definition timestamp (timeStr : string) : res F :=
  timestamp_loop (rev (split ":" timeStr)) (of_int 0) 1.

(** ** [timestampStr] *)

Definition timestampStr (time : F) : res string :=
  _ <- assert (fge0 time) ;;
  ss <- ftrunc time ;;
  ms <- ftrunc (fmul (fsub time (of_int ss)) (of_int 1000)) ;;
  let mm := ss / 60 in
  let ss := ss mod 60 in
  let h := mm / 60 in
  let mm := mm mod 60 in
  Ok (str_of_int h ++ ":" ++ fmt_fill_left 2 mm ++ ":" ++ fmt_fill_left 2 ss
        ++ "." ++ fmt_fill_right 3 ms)%string.

(** ** [adjustSbv] *)

(** A caption record as it goes to the output: the timestamps of its
    timestamp line, as numbers, and its text lines. *)
Record caption_record : Type := mkRecord {
  rec_times : list F;
  rec_lines : list string
}.

Definition rec_start (r : caption_record) : option F :=
  nth_error (rec_times r) 0.

Definition rec_end (r : caption_record) : option F :=
  nth_error (rec_times r) 1.

(** The local variables of [adjustSbv], with the output file [fout] as
    the list of strings written so far.  [emitted] is a ghost log: one
    caption record for every timestamp line written, in order. *)
Record state : Type := mkState {
  isHdr : bool;
  isSbv : option bool;
  ts : option F;
  times : list F;
  captions : list string;
  fout : list string;
  emitted : list caption_record
}.

Definition init (ts : option F) : state :=
  mkState true None ts [] [] [] [].

(** [(ts or 0)] *)
Definition ts_or_0 (ts : option F) : F :=
  match ts with
  | Some t => if ftruthy t then t else of_int 0
  | None => of_int 0
  end.

(** [fout.write(timeSep.join(timestampStr(t) for t in times) + '\n')] *)
Definition write_times (st : state) : res state :=
  strs <- mapM timestampStr (times st) ;;
  Ok (mkState (isHdr st) (isSbv st) (ts st) (times st) (captions st)
        (fout st ++ [(join (String timeSep EmptyString) strs ++ nl)%string])
        (emitted st ++ [mkRecord (times st) (captions st)])).

(** Step 3 of the loop body: the new timestamps of a metadata line.
    The result carries [timesNew]. *)
Definition fetch_times (ln : string) (st : state)
  : res (state * option (list F)) :=
  match isSbv st with
  | Some false =>
      _ <- assert (List.length (times st) =? 1)%nat ;;
      t <- timestamp ln ;;
      Ok (mkState (isHdr st) (isSbv st) (ts st)
            (times st ++ [fsub t (ts_or_0 (ts st))])
            (captions st) (fout st) (emitted st), None)
  | sbv =>
      timesNew <- mapM timestamp (split timeSep ln) ;;
      match sbv with
      | None =>
          _ <- assert (is_nil (times st)) ;;
          let isSbv' := (List.length timesNew =? 2)%nat in
          ts' <- match ts st with
                 | Some t => t0 <- item0 timesNew ;; Ok (Some (fsub t0 t))
                 | None => Ok None
                 end ;;
          times' <- (if negb isSbv'
                     then t0 <- item0 timesNew ;;
                          Ok (times st ++ [fsub t0 (ts_or_0 ts')])
                     else Ok (times st)) ;;
          Ok (mkState (isHdr st) (Some isSbv') ts' times'
                (captions st) (fout st) (emitted st), Some timesNew)
      | Some _ =>
          _ <- assert (List.length (times st) =? 2)%nat ;;
          let times' := match ts st with
                        | Some t => map (fun x => fsub x t) (times st)
                        | None => times st
                        end in
          Ok (mkState (isHdr st) (isSbv st) (ts st) times'
                (captions st) (fout st) (emitted st), Some timesNew)
      end
  end.

(** The [if captions:] block that ends the loop body.  [timesNew] is
    [None] only on the path where [isSbv] is [False]. *)
Definition flush (timesNew : option (list F)) (st : state) : res state :=
  match captions st with
  | [] => Ok st
  | _ :: _ =>
      st1 <- write_times st ;;
      times' <- match isSbv st1 with
                | Some true =>
                    Ok (match timesNew with
                        | Some l => l
                        | None => times st1
                        end)
                | _ => pop0 (times st1)
                end ;;
      Ok (mkState (isHdr st1) (isSbv st1) (ts st1) times' []
            (fout st1 ++ captions st1 ++ [nl]) (emitted st1))
  end.

(** One iteration of [for ln in finp]. *)
Definition step (ln : string) (st : state) : res state :=
  if isHdr st && startswith ln hdrMark then Ok st
  else
    let st := mkState false (isSbv st) (ts st) (times st) (captions st)
                (fout st) (emitted st) in
    match classify ln with
    | Blank => Ok st
    | Text =>
        Ok (mkState (isHdr st) (isSbv st) (ts st) (times st)
              (captions st ++ [ln]) (fout st) (emitted st))
    | Metadata =>
        '(st1, timesNew) <- fetch_times ln st ;;
        flush timesNew st1
    end.

(** The loop: the state when the input is exhausted ([None]) or the
    state before the iteration that raised. *)
Fixpoint loop (lines : list string) (st : state) : state * option exn :=
  match lines with
  | [] => (st, None)
  | ln :: lines' =>
      match step ln st with
      | Ok st' => loop lines' st'
      | Raise e => (st, Some e)
      end
  end.

(** The code after the loop. *)
Definition finish (st : state) : res state :=
  match captions st with
  | [] => Ok st
  | _ :: _ =>
      times' <- (if (List.length (times st) =? 1)%nat
                 then t0 <- item0 (times st) ;;
                      Ok (times st ++ [fadd t0 (of_int 5)])
                 else Ok (times st)) ;;
      st1 <- write_times
               (mkState (isHdr st) (isSbv st) (ts st) times' (captions st)
                  (fout st) (emitted st)) ;;
      Ok (mkState (isHdr st1) (isSbv st1) (ts st1) (times st1) (captions st1)
            (fout st1 ++ captions st1) (emitted st1))
  end.

(** [adjustSbv(finp, fout, ts)]: the final state, whose [fout] is what
    was written, and the exception raised, if any. *)
Definition adjustSbv (finp : list string) (ts : option F)
  : state * option exn :=
  match loop finp (init ts) with
  | (st, Some e) => (st, Some e)
  | (st, None) =>
      match finish st with
      | Ok st' => (st', None)
      | Raise e => (st, Some e)
      end
  end.

(** Consecutive records share a boundary, and the last one ends at [x]. *)
Fixpoint chained_to (l : list caption_record) (x : option F) : Prop :=
  match l with
  | [] => True
  | r1 :: l' =>
      match l' with
      | [] => rec_end r1 = x
      | r2 :: _ => rec_end r1 = rec_start r2 /\ chained_to l' x
      end
  end.

(** The invariant of the loop behind the chaining of records: nothing is
    emitted before the encoding is known, and under Single encoding the
    records emitted so far are chained up to the first pending
    timestamp. *)
Definition chain_inv (st : state) : Prop :=
  match isSbv st with
  | None => emitted st = []
  | Some false => chained_to (emitted st) (nth_error (times st) 0)
  | Some true => True
  end.

(** The state of a run under Single encoding that met no caption text in
    front of the first metadata line: every record emitted has a start
    and an end, and one or two timestamps are pending. *)
Definition single_pairs (st : state) : Prop :=
  isSbv st = Some false /\
  Forall (fun r => List.length (rec_times r) = 2%nat) (emitted st) /\
  (List.length (times st) = 1%nat \/ List.length (times st) = 2%nat).

End Program.

Arguments caption_record F : clear implicits.
Arguments state F : clear implicits.

(** ** Decimal literals

    The number a decimal literal denotes, as an exact fraction. *)

Module Literal.

Definition digit_val (c : ascii) : option Z :=
  let n := code c in
  if ((48 <=? n) && (n <=? 57))%N then Some (Z.of_N n - 48) else None.

Fixpoint digits_val (acc : Z) (s : string) : option Z :=
  match s with
  | EmptyString => Some acc
  | String c s' =>
      match digit_val c with
      | Some d => digits_val (10 * acc + d) s'
      | None => None
      end
  end.

(** An unsigned decimal literal: digits, with at most one point, and at
    least one digit. *)
Definition parse_decimal (s : string) : option Q :=
  match split "." s with
  | [i] =>
      if is_empty i then None
      else match digits_val 0 i with
           | Some a => Some (inject_Z a)
           | None => None
           end
  | [i; f] =>
      if is_empty i && is_empty f then None
      else match digits_val 0 i, digits_val 0 f with
           | Some a, Some b =>
               let p := 10 ^ Z.of_nat (String.length f) in
               Some (Qred (Qmake (a * p + b) (Z.to_pos p)))
           | _, _ => None
           end
  | _ => None
  end.

Definition is_digit_char (c : ascii) : bool :=
  match digit_val c with
  | Some _ => true
  | None => false
  end.

Definition starts_with_digit (s : string) : bool :=
  match s with
  | EmptyString => false
  | String c _ => is_digit_char c
  end.

(** The underscores of a literal, each between two digits, taken out;
    [prev] tells whether the character before was a digit. *)
Fixpoint drop_underscores (prev : bool) (s : string) : option string :=
  match s with
  | EmptyString => Some EmptyString
  | String c s' =>
      if Ascii.eqb c "_" then
        if prev && starts_with_digit s' then drop_underscores false s'
        else None
      else
        match drop_underscores (is_digit_char c) s' with
        | Some r => Some (String c r)
        | None => None
        end
  end.

(** The text in front of the first [e] or [E], and the text after it. *)
Fixpoint split_exp (s : string) : string * option string :=
  match s with
  | EmptyString => (EmptyString, None)
  | String c s' =>
      if Ascii.eqb c "e" || Ascii.eqb c "E" then (EmptyString, Some s')
      else let (m, e) := split_exp s' in (String c m, e)
  end.

Definition parse_digits (s : string) : option Z :=
  if is_empty s then None else digits_val 0 s.

(** An exponent: digits with an optional sign. *)
Definition parse_exponent (s : string) : option Z :=
  match s with
  | EmptyString => None
  | String c r =>
      if Ascii.eqb c "-" then
        match parse_digits r with
        | Some k => Some (- k)
        | None => None
        end
      else if Ascii.eqb c "+" then parse_digits r
      else parse_digits s
  end.

(** An unsigned literal: a decimal with its digits grouped by
    underscores or not, and an optional exponent. *)
Definition parse_number (s : string) : option Q :=
  match drop_underscores false s with
  | None => None
  | Some b =>
      let (m, e) := split_exp b in
      match parse_decimal m with
      | None => None
      | Some q =>
          match e with
          | None => Some q
          | Some ex =>
              match parse_exponent ex with
              | Some k => Some (Qred (q * Qpower (inject_Z 10) k))
              | None => None
              end
          end
      end
  end.

End Literal.

(** ** Floats of 64 bits

    A CPython [float] is a binary64 number of IEEE 754: [spec_float] with
    a mantissa of 53 bits and the exponent 1024 for the infinities.  The
    arithmetic is that of [SpecFloat], rounding to nearest, ties to
    even. *)

Module Binary64.

Definition prec : Z := 53.
Definition emax : Z := 1024.

(** The binary64 number nearest to the fraction [q], ties to even, with
    the sign [neg] in place of the sign of [q]: the quotient of the
    numerator by the denominator, rounded once; the infinity when it is
    out of range. *)
Definition nearest (neg : bool) (q : Q) : spec_float :=
  match Qnum q with
  | Z0 => S754_zero neg
  | n =>
      let '(m, e, l) :=
        SFdiv_core_binary prec emax (Z.abs n) 0 (Zpos (Qden q)) 0 in
      binary_round_aux prec emax neg m e l
  end.

(** The float a decimal constant of this file stands for. *)
Definition of_Q (q : Q) : spec_float := nearest (Qnum q <? 0) q.

(** The number a finite float is; 0 for the others. *)
Definition to_Q (x : spec_float) : Q :=
  match x with
  | S754_finite s m e =>
      let v := (inject_Z (Zpos m) * Qpower (inject_Z 2) e)%Q in
      if s then Qopp v else v
  | _ => 0%Q
  end.

(** [Py_TOLOWER]: the capital letters A..Z. *)
Definition tolower (c : ascii) : ascii :=
  let n := code c in
  if ((65 <=? n) && (n <=? 90))%N then ascii_of_N (n + 32) else c.

Fixpoint lower_ascii (s : string) : string :=
  match s with
  | EmptyString => EmptyString
  | String c s' => String (tolower c) (lower_ascii s')
  end.

(** The words [float()] reads when its argument is no decimal literal:
    [inf], [infinity] and [nan], in any letter case. *)
Definition parse_inf_or_nan (s : string) : option spec_float :=
  let w := lower_ascii s in
  if String.eqb w "inf" || String.eqb w "infinity"
  then Some (S754_infinity false)
  else if String.eqb w "nan" then Some S754_nan
  else None.

(** [float(s)]: blanks at both ends are skipped, then an optional sign,
    then a decimal literal, which gives the nearest float, or one of the
    words for infinity and NaN; [ValueError] for any other text. *)
Definition of_str (s : string) : res spec_float :=
  let b := float_strip s in
  let (neg, body) :=
    match b with
    | EmptyString => (false, b)
    | String c r =>
        if Ascii.eqb c "-" then (true, r)
        else if Ascii.eqb c "+" then (false, r)
        else (false, b)
    end in
  match Literal.parse_number body with
  | Some q => Ok (nearest neg q)
  | None =>
      match parse_inf_or_nan body with
      | Some x => Ok (if neg then SFopp x else x)
      | None => Raise ValueError
      end
  end.

(** The conversion of an [int]: the nearest float; it raises
    [OverflowError] when that is out of range. *)
Definition of_Z (n : Z) : spec_float := binary_normalize prec emax n 0 false.

Definition fits (n : Z) : bool :=
  match of_Z n with
  | S754_infinity _ => false
  | _ => true
  end.

Definition add (a b : spec_float) : spec_float := SFadd prec emax a b.
Definition sub (a b : spec_float) : spec_float := SFsub prec emax a b.
Definition mul (a b : spec_float) : spec_float := SFmul prec emax a b.

(** [a >= 0]: false for NaN, true for both zeros. *)
Definition ge0 (a : spec_float) : bool := SFleb (S754_zero false) a.

(** [bool(a)], that is [a != 0]: true for NaN, false for both zeros. *)
Definition truthy (a : spec_float) : bool :=
  negb (SFeqb a (S754_zero false)).

(** [int(a)]: the integer part, towards zero; [OverflowError] for an
    infinity and [ValueError] for NaN. *)
Definition trunc (a : spec_float) : res Z :=
  match a with
  | S754_zero _ => Ok 0
  | S754_infinity _ => Raise OverflowError
  | S754_nan => Raise ValueError
  | S754_finite s m e =>
      let v := match e with
               | Zneg p => Z.shiftr (Zpos m) (Zpos p)
               | _ => Z.shiftl (Zpos m) e
               end in
      Ok (if s then - v else v)
  end.

End Binary64.

#[global] Instance Binary64_PyFloat : PyFloat spec_float := {
  float_of_str := Binary64.of_str;
  of_int := Binary64.of_Z;
  int_fits := Binary64.fits;
  fadd := Binary64.add;
  fsub := Binary64.sub;
  fmul := Binary64.mul;
  fge0 := Binary64.ge0;
  ftruthy := Binary64.truthy;
  ftrunc := Binary64.trunc
}.

(** ** The scenarios *)

Definition single_input : list string :=
  [line "0:00"; line "Hello"; line "0:00:05"; line "World"].

Definition dual_input : list string :=
  [line "0:00:10.000,0:00:12.000"; line "Hello";
   line "0:00:15.000,0:00:18.000"; line "World"].

(** Caption text in front of the first pair of a dual input. *)
Definition dual_input_after_text : list string :=
  line "Intro" :: dual_input.

(** Two timestamps of a single input with no caption text between them. *)
Definition single_input_no_text_between : list string :=
  [line "0:00"; line "0:00:07"; line "Hello"].

(** A three-field line under Dual encoding. *)
Definition dual_input_three_fields : list string :=
  [line "Intro"; line "0:01,0:02"; line "Hello"; line "0:03,0:04,0:05";
   line "World"].

(** Caption text in front of the first timestamp of a single input. *)
Definition single_input_after_text : list string :=
  [line "Intro"; line "0:05"; line "Hello"].

(** Header, blank line and caption text, and no timestamp. *)
Definition text_only_input : list string :=
  [line "# header"; nl; line "Hello"].

(** [timestamp(timestampStr(timestamp(T)))] *)
Definition roundtrip {F : Type} {PF : PyFloat F} (T : string) : res F :=
  t <- timestamp T ;; s <- timestampStr t ;; timestamp s.

(** ** The output, record by record *)

Section Records.

Context {F : Type} {PF : PyFloat F}.

(** The lines a caption record takes in the output: its timestamp line
    and its text lines. *)
Definition render_record (r : caption_record F) : res (list string) :=
  strs <- mapM timestampStr (rec_times r) ;;
  Ok ((join (String timeSep EmptyString) strs ++ nl)%string :: rec_lines r).

(** Every record followed by the separator line. *)
Definition separated (blocks : list (list string)) : list string :=
  List.concat (map (fun b => b ++ [nl]) blocks).

(** A block of a well-formed single-encoded input: a timestamp line, the
    timestamp it parses to, and the caption lines that follow it. *)
Record sblock : Type := mkBlock {
  b_line : string;
  b_time : F;
  b_text : list string
}.

Definition wf_sblock (b : sblock) : Prop :=
  classify (b_line b) = Metadata /\
  str_mem timeSep (b_line b) = false /\
  timestamp (b_line b) = Ok (b_time b) /\
  b_text b <> [] /\
  Forall (fun c => classify c = Text) (b_text b).

Definition single_stream (bs : list sblock) : list string :=
  flat_map (fun b => b_line b :: b_text b) bs.

(** The offset kept in [ts] after the first timestamp [t0], as it is
    subtracted under Single encoding. *)
Definition single_offset (t0 : F) (ts0 : option F) : F :=
  ts_or_0 (match ts0 with
           | Some t => Some (fsub t0 t)
           | None => None
           end).

(** The records of a well-formed single-encoded input: each caption from
    its timestamp to the next one, the last one for 5 seconds. *)
Fixpoint single_records (a : F) (c : list string)
    (rest : list (F * list string)) : list (caption_record F) :=
  match rest with
  | [] => [mkRecord [a; fadd a (of_int 5)] c]
  | (a', c') :: rest' => mkRecord [a; a'] c :: single_records a' c' rest'
  end.

Definition printable (t : F) : Prop := exists s, timestampStr t = Ok s.

End Records.

Arguments sblock F : clear implicits.

(** ** The number a timestamp text denotes *)

(** The value of fields in base 60, most significant first. *)
Fixpoint horner (acc : Q) (xs : list Q) : Q :=
  match xs with
  | [] => acc
  | x :: xs' => horner (acc * 60 + x) xs'
  end.

Definition sexagesimal (xs : list Q) : Q := horner 0 xs.

(** Every field as an unsigned decimal number. *)
Fixpoint decimals (fields : list string) : option (list Q) :=
  match fields with
  | [] => Some []
  | f :: fields' =>
      match Literal.parse_decimal f, decimals fields' with
      | Some x, Some xs => Some (x :: xs)
      | _, _ => None
      end
  end.

(** The number of seconds a text [h:mm:ss.mmm] denotes: its
    colon-separated fields as decimal numbers, in base 60.  This is the
    number written, not the float that reading it back gives. *)
Definition text_value (txt : string) : option Q :=
  match decimals (split ":" txt) with
  | Some xs => Some (sexagesimal xs)
  | None => None
  end.

(** The text [timestampStr] gives for [ss] whole seconds and [ms]
    milliseconds. *)
Definition time_text (ss ms : Z) : string :=
  (str_of_int (ss / 60 / 60) ++ ":" ++ fmt_fill_left 2 (ss / 60 mod 60) ++ ":"
     ++ fmt_fill_left 2 (ss mod 60) ++ "." ++ fmt_fill_right 3 ms)%string.

Definition is_dec_digit (c : ascii) : bool :=
  match Literal.digit_val c with
  | Some _ => true
  | None => false
  end.

Fixpoint all_digits (s : string) : bool :=
  match s with
  | EmptyString => true
  | String c s' => is_dec_digit c && all_digits s'
  end.

(** ** The output file name

    The body of the loop over the input file names, up to the name of
    the output file, with [os.path.splitext] as on POSIX. *)

(** [s.rfind(c)]: the index of the last [c] in [s], or -1. *)
Fixpoint rfind_from (c : ascii) (s : string) (i found : Z) : Z :=
  match s with
  | EmptyString => found
  | String a s' => rfind_from c s' (i + 1) (if Ascii.eqb a c then i else found)
  end.

Definition rfind (c : ascii) (s : string) : Z := rfind_from c s 0 (-1).

(** [s[:n]] and [s[n:]] *)
Fixpoint str_take (n : nat) (s : string) : string :=
  match n, s with
  | S n', String a s' => String a (str_take n' s')
  | _, _ => EmptyString
  end.

Fixpoint str_drop (n : nat) (s : string) : string :=
  match n, s with
  | S n', String a s' => str_drop n' s'
  | _, _ => s
  end.

(** The loop of [splitext] over the characters between the separator
    and the last dot: whether one of them is no dot. *)
Fixpoint has_non_dot (s : string) : bool :=
  match s with
  | EmptyString => false
  | String a s' => negb (Ascii.eqb a ".") || has_non_dot s'
  end.

(** [os.path.splitext(p)] *)
Definition splitext (p : string) : string * string :=
  let sepIndex := rfind "/" p in
  let dotIndex := rfind "." p in
  if (sepIndex <? dotIndex)
     && has_non_dot
          (str_take (Z.to_nat (dotIndex - (sepIndex + 1)))
             (str_drop (Z.to_nat (sepIndex + 1)) p))
  then (str_take (Z.to_nat dotIndex) p, str_drop (Z.to_nat dotIndex) p)
  else (p, EmptyString).

(** [c.lower()]: the capital letters A..Z and those of Latin-1. *)
Definition lower_char (c : ascii) : ascii :=
  let n := code c in
  if (((65 <=? n) && (n <=? 90)) || ((192 <=? n) && (n <=? 214))
      || ((216 <=? n) && (n <=? 222)))%N
  then ascii_of_N (n + 32) else c.

Fixpoint lower (s : string) : string :=
  match s with
  | EmptyString => EmptyString
  | String a s' => String (lower_char a) (lower s')
  end.

(** The name of the output file for the input file [ifname]. *)
Definition output_name (ifname : string) : string :=
  let (ofname, ext) := splitext ifname in
  if String.eqb (lower ext) ".sbv"
  then ((ofname ++ ".fix") ++ ext)%string
  else (ofname ++ ".sbv")%string.

(** The blocks of the Single scenario. *)
Definition hello_block : sblock spec_float :=
  mkBlock (line "0:00") (Binary64.of_Q 0) [line "Hello"].

Definition world_block : sblock spec_float :=
  mkBlock (line "0:00:05") (Binary64.of_Q 5) [line "World"].

(** The milliseconds as the field filled on the right reads: one digit
    counts hundreds, two digits count tens. *)
Definition filled_ms (ms : Z) : Z :=
  if ms <? 10 then ms * 100 else if ms <? 100 then ms * 10 else ms.

(** A text of decimal digits, not empty, of value [v]. *)
Definition digits_read (txt : string) (v : Z) : bool :=
  all_digits txt && negb (is_empty txt) &&
  match Literal.digits_val 0 txt with
  | Some x => x =? v
  | None => false
  end.

(** A field of minutes or of seconds, and the milliseconds field. *)
Definition seconds_text_ok (sec : Z) : bool :=
  digits_read (fmt_fill_left 2 sec) sec.

Definition ms_text_ok (ms : Z) : bool :=
  digits_read (fmt_fill_right 3 ms) (filled_ms ms) &&
  (String.length (fmt_fill_right 3 ms) =? 3)%nat.

(** ** A timestamp read and written again *)

(** [timestampStr(timestamp(T))]: what [adjustSbv] writes for the
    timestamp text [T] when nothing is shifted. *)
Definition reprint {F : Type} {PF : PyFloat F} (T : string) : res string :=
  t <- timestamp T ;; timestampStr t.

(** The same float, as data: the same sign, mantissa and exponent. *)
Definition same_float (x y : spec_float) : bool :=
  match x, y with
  | S754_zero a, S754_zero b => Bool.eqb a b
  | S754_infinity a, S754_infinity b => Bool.eqb a b
  | S754_nan, S754_nan => true
  | S754_finite a m e, S754_finite b n f =>
      Bool.eqb a b && Pos.eqb m n && Z.eqb e f
  | _, _ => false
  end.

(** A whole number [n] of seconds is written as [h:mm:ss.000] and that
    text is read as [n]. *)
Definition whole_second_ok (n : Z) : bool :=
  match timestampStr (of_int n), timestamp (time_text n 0) with
  | Ok s, Ok x => String.eqb s (time_text n 0) && same_float x (of_int n)
  | _, _ => false
  end.

(** A text [0:00:00.mmm] with a millisecond field of three digits and no
    leading zero is written again as it is. *)
Definition millis_ok (ms : Z) : bool :=
  (ms <? 100) ||
  match reprint (F:=spec_float) (time_text 0 ms) with
  | Ok s => String.eqb s (time_text 0 ms)
  | Raise _ => false
  end.

(** * Properties *)

Section Properties.

Context {F : Type} {PF : PyFloat F}.

Lemma bind_Ok {A B : Type} (m : res A) (k : A -> res B) (b : B) :
  bind m k = Ok b -> exists a, m = Ok a /\ k a = Ok b.
Proof.
  destruct m as [a|e]; simpl; intros E; [eauto | discriminate].
Qed.

Lemma assert_Ok (b : bool) (u : unit) : assert b = Ok u -> b = true.
Proof.
  destruct b; simpl; [reflexivity | discriminate].
Qed.

Lemma loop_app (l1 l2 : list string) (st : state F) :
  loop (l1 ++ l2) st =
  match loop l1 st with
  | (st', None) => loop l2 st'
  | (st', Some e) => (st', Some e)
  end.
Proof.
  revert st; induction l1 as [|ln l1 IH]; intros st; simpl.
  - reflexivity.
  - destruct (step ln st) as [st'|e]; [apply IH | reflexivity].
Qed.

(** A metadata line does not start with the header mark. *)
Lemma metadata_not_header (ln : string) :
  classify ln = Metadata -> startswith ln hdrMark = false.
Proof.
  destruct ln as [|c ln]; [reflexivity|].
  unfold startswith. destruct (Ascii.eqb_spec c hdrMark) as [->|]; [|reflexivity].
  unfold classify, split_ws1. simpl.
  destruct (span_token ln) as [t r].
  destruct (lstrip r); simpl; discriminate.
Qed.

(** A line that is no metadata line changes the header flag and the
    caption buffer only. *)
Lemma step_no_metadata (ln : string) (st : state F) :
  classify ln <> Metadata ->
  step ln st =
  Ok (mkState (isHdr st && startswith ln hdrMark) (isSbv st) (ts st)
        (times st)
        (captions st ++
           (if isHdr st && startswith ln hdrMark then []
            else if is_text ln then [ln] else []))
        (fout st) (emitted st)).
Proof.
  intros Hc. unfold step, is_text.
  destruct (isHdr st && startswith ln hdrMark) eqn:Eh.
  - rewrite app_nil_r. destruct st; simpl in *.
    apply andb_true_iff in Eh as [-> _]. reflexivity.
  - simpl. destruct (classify ln); [ | | congruence ]; simpl.
    + rewrite app_nil_r. reflexivity.
    + reflexivity.
Qed.

Lemma loop_no_metadata (lines : list string) (st : state F) :
  no_metadata lines ->
  loop lines st =
  (mkState (isHdr st && forallb (fun ln => startswith ln hdrMark) lines)
     (isSbv st) (ts st) (times st)
     (captions st ++
        filter is_text (if isHdr st then skip_header lines else lines))
     (fout st) (emitted st), None).
Proof.
  revert st; induction lines as [|ln lines IH]; intros st Hn.
  - destruct st as [hd sb t tm cp fo em]; simpl. rewrite andb_true_r.
    destruct hd; simpl; rewrite app_nil_r; reflexivity.
  - inversion Hn as [|? ? Hc Hn']; subst.
    simpl loop. rewrite (step_no_metadata ln st Hc).
    rewrite (IH _ Hn'). simpl.
    destruct (isHdr st); simpl.
    + destruct (startswith ln hdrMark); simpl.
      * rewrite app_nil_r. reflexivity.
      * destruct (is_text ln); simpl; rewrite <- app_assoc; reflexivity.
    + destruct (is_text ln); simpl; rewrite <- app_assoc; reflexivity.
Qed.

(** ** Input without metadata *)

(** C9 (amended): an input with no metadata line at all raises nothing.
    [adjustSbv] completes; it writes nothing when the input has no
    caption text, and otherwise one empty timestamp line followed by the
    caption text lines. *)
Theorem no_metadata_completes (lines : list string) (ts0 : option F) :
  no_metadata lines ->
  exists st,
    adjustSbv lines ts0 = (st, None) /\
    fout st = match caption_text lines with
              | [] => []
              | _ :: _ => nl :: caption_text lines
              end /\
    emitted st = match caption_text lines with
                 | [] => []
                 | _ :: _ => [mkRecord [] (caption_text lines)]
                 end.
Proof.
  intros Hn. unfold adjustSbv.
  rewrite (loop_no_metadata lines (init ts0) Hn). simpl.
  fold (caption_text lines).
  unfold finish; simpl.
  destruct (caption_text lines) as [|c cs]; simpl.
  - eexists; repeat split; reflexivity.
  - eexists; repeat split; reflexivity.
Qed.

(** ** Caption text before the first metadata line *)

(** C10: when caption text precedes the first metadata line and that
    line has two comma-joined fields that parse, the loop raises nothing
    up to and including that line: it writes an empty timestamp line (the
    record has no timestamps), the buffered text and the separator line,
    and then holds the parsed pair, as parsed, as pending boundary. *)
Theorem text_before_dual_metadata
    (pre : list string) (ln a b : string) (ta tb : F) (ts0 : option F) :
  no_metadata pre ->
  caption_text pre <> [] ->
  classify ln = Metadata ->
  split timeSep ln = [a; b] ->
  timestamp a = Ok ta ->
  timestamp b = Ok tb ->
  exists st,
    loop (pre ++ [ln]) (init ts0) = (st, None) /\
    fout st = [nl] ++ caption_text pre ++ [nl] /\
    emitted st = [mkRecord [] (caption_text pre)] /\
    isSbv st = Some true /\
    times st = [ta; tb] /\
    captions st = [].
Proof.
  intros Hn Hc Hm Hs Ha Hb.
  rewrite loop_app, (loop_no_metadata pre (init ts0) Hn). simpl.
  fold (caption_text pre).
  unfold step; simpl.
  rewrite (metadata_not_header ln Hm), andb_false_r, Hm.
  unfold fetch_times; simpl. rewrite Hs; simpl. rewrite Ha, Hb; simpl.
  destruct (caption_text pre) as [|c cs]; [congruence|].
  destruct ts0 as [t|]; simpl;
    eexists; repeat split; reflexivity.
Qed.

(** ** Chaining under Single encoding *)

Ltac bind_inv :=
  repeat match goal with
    | E : bind _ _ = Ok _ |- _ =>
        apply bind_Ok in E; destruct E as (? & ? & E)
    | E : assert _ = Ok _ |- _ => apply assert_Ok in E
    | E : Raise _ = Ok _ |- _ => discriminate E
    | E : Ok _ = Ok _ |- _ => injection E as E
    end.

Lemma chained_to_snoc (l : list (caption_record F)) (r : caption_record F) :
  chained_to l (rec_start r) -> chained_to (l ++ [r]) (rec_end r).
Proof.
  induction l as [|r1 l IH]; simpl; intros Hl.
  - reflexivity.
  - destruct l as [|r2 l]; simpl in *.
    + split; [assumption | reflexivity].
    + destruct Hl as [E Hl]. split; [assumption | apply IH; assumption].
Qed.

Lemma chained_to_nth (l : list (caption_record F)) (x : option F)
    (i : nat) (r1 r2 : caption_record F) :
  chained_to l x ->
  nth_error l i = Some r1 -> nth_error l (S i) = Some r2 ->
  rec_end r1 = rec_start r2.
Proof.
  revert i; induction l as [|a l IH]; intros i Hl H1 H2.
  - destruct i; discriminate.
  - destruct l as [|b l]; [destruct i; discriminate|].
    destruct Hl as [E Hl].
    destruct i as [|i]; simpl in H1, H2.
    + congruence.
    + exact (IH i Hl H1 H2).
Qed.

Lemma fetch_times_chain_inv (ln : string) (st st1 : state F)
    (tn : option (list F)) :
  chain_inv st -> fetch_times ln st = Ok (st1, tn) ->
  chain_inv st1 /\ isSbv st1 <> None.
Proof.
  unfold chain_inv, fetch_times. intros Hi E.
  destruct (isSbv st) as [[|]|] eqn:Es; bind_inv.
  - subst. simpl. split; [exact I | discriminate].
  - subst. simpl. split; [|discriminate].
    destruct (times st) as [|a [|b tl]]; try discriminate. exact Hi.
  - subst. simpl. split; [|discriminate].
    destruct (List.length x =? 2)%nat; [exact I | rewrite Hi; exact I].
Qed.

Lemma flush_chain_inv (tn : option (list F)) (st st' : state F) :
  chain_inv st -> isSbv st <> None -> flush tn st = Ok st' -> chain_inv st'.
Proof.
  unfold flush, write_times. intros Hi Hs E.
  destruct (captions st) as [|c cs] eqn:Ec; bind_inv.
  - subst; assumption.
  - subst. unfold chain_inv in *. simpl in *.
    destruct (isSbv st) as [[|]|]; [exact I| |congruence].
    destruct (times st) as [|a tl] eqn:Et; simpl in *; bind_inv.
    subst.
    match goal with
    | |- chained_to (_ ++ [?r]) _ => exact (chained_to_snoc _ r Hi)
    end.
Qed.

Lemma step_chain_inv (ln : string) (st st' : state F) :
  chain_inv st -> step ln st = Ok st' -> chain_inv st'.
Proof.
  unfold step. intros Hi E.
  destruct (isHdr st && startswith ln hdrMark).
  - injection E as <-. assumption.
  - destruct (classify ln).
    + injection E as <-. exact Hi.
    + injection E as <-. exact Hi.
    + apply bind_Ok in E. destruct E as ([st1 tn] & E1 & E2).
      apply fetch_times_chain_inv in E1 as [Hi1 Hs1]; [|exact Hi].
      exact (flush_chain_inv tn st1 st' Hi1 Hs1 E2).
Qed.

Lemma loop_chain_inv (lines : list string) (st st' : state F)
    (e : option exn) :
  chain_inv st -> loop lines st = (st', e) -> chain_inv st'.
Proof.
  revert st; induction lines as [|ln lines IH]; simpl; intros st Hi E.
  - injection E as <- _. assumption.
  - destruct (step ln st) as [st1|x] eqn:Es.
    + exact (IH st1 (step_chain_inv ln st st1 Hi Es) E).
    + injection E as <- _. assumption.
Qed.

Lemma finish_chain_inv (st st' : state F) :
  chain_inv st -> finish st = Ok st' -> isSbv st' = Some false ->
  exists x, chained_to (emitted st') x.
Proof.
  unfold finish, write_times, chain_inv. intros Hi E Hs.
  destruct (captions st) as [|c cs] eqn:Ec; bind_inv.
  - subst. rewrite Hs in Hi. eauto.
  - subst. simpl in *. rewrite Hs in Hi.
    eexists. apply chained_to_snoc. unfold rec_start; simpl.
    destruct (List.length (times st) =? 1)%nat; bind_inv; subst.
    + destruct (times st); [discriminate | exact Hi].
    + exact Hi.
Qed.

(** Under Single encoding the second timestamp of the timestamp line of
    a record, if there is one, and the first timestamp of the line of the
    record written next, if there is one, are the same. *)
Lemma single_boundary_shared
    (lines : list string) (ts0 : option F) (st : state F) (e : option exn)
    (i : nat) (r1 r2 : caption_record F) :
  adjustSbv lines ts0 = (st, e) ->
  isSbv st = Some false ->
  nth_error (emitted st) i = Some r1 ->
  nth_error (emitted st) (S i) = Some r2 ->
  rec_end r1 = rec_start r2.
Proof.
  unfold adjustSbv. intros E Hs H1 H2.
  destruct (loop lines (init ts0)) as [st1 [x|]] eqn:El;
    assert (Hi : chain_inv st1)
      by (apply (loop_chain_inv lines (init ts0) st1 _ eq_refl El)).
  - injection E as <- _. unfold chain_inv in Hi. rewrite Hs in Hi.
    exact (chained_to_nth _ _ i r1 r2 Hi H1 H2).
  - destruct (finish st1) as [st2|x] eqn:Ef; injection E as <- _.
    + destruct (finish_chain_inv st1 st2 Hi Ef Hs) as [y Hy].
      exact (chained_to_nth _ _ i r1 r2 Hy H1 H2).
    + unfold chain_inv in Hi. rewrite Hs in Hi.
      exact (chained_to_nth _ _ i r1 r2 Hi H1 H2).
Qed.

(** Under Single encoding with no caption text in front of the first
    metadata line every record has its two timestamps. *)

Lemma mapM_length {A B : Type} (f : A -> res B) (l : list A) (l' : list B) :
  mapM f l = Ok l' -> List.length l' = List.length l.
Proof.
  revert l'; induction l as [|a l IH]; simpl; intros l' E; bind_inv.
  - subst. reflexivity.
  - subst. simpl. f_equal. apply IH. assumption.
Qed.

(** Once detected, the encoding stays. *)
Lemma step_isSbv_stable (ln : string) (st st' : state F) (b : bool) :
  isSbv st = Some b -> step ln st = Ok st' -> isSbv st' = Some b.
Proof.
  unfold step, fetch_times, flush, write_times. intros Hs E.
  destruct (isHdr st && startswith ln hdrMark);
    [injection E as <-; assumption|].
  destruct (classify ln);
    [injection E as <-; assumption | injection E as <-; assumption |].
  simpl in E. rewrite Hs in E.
  destruct b; bind_inv; subst; simpl in *;
    (destruct (captions st); bind_inv; subst; simpl; reflexivity).
Qed.

Lemma loop_isSbv_stable (lines : list string) (st st' : state F)
    (e : option exn) (b : bool) :
  isSbv st = Some b -> loop lines st = (st', e) -> isSbv st' = Some b.
Proof.
  revert st; induction lines as [|ln lines IH]; simpl; intros st Hs E.
  - injection E as <- _. assumption.
  - destruct (step ln st) as [st1|x] eqn:Es.
    + exact (IH st1 (step_isSbv_stable ln st st1 b Hs Es) E).
    + injection E as <- _. assumption.
Qed.

Lemma finish_isSbv (st st' : state F) :
  finish st = Ok st' -> isSbv st' = isSbv st.
Proof.
  unfold finish, write_times. intros E.
  destruct (captions st); bind_inv; subst; reflexivity.
Qed.

Lemma step_single_pairs (ln : string) (st st' : state F) :
  single_pairs st -> step ln st = Ok st' -> single_pairs st'.
Proof.
  intros (Hs & Hf & Hl) E. unfold single_pairs.
  split; [exact (step_isSbv_stable ln st st' false Hs E)|].
  revert E. unfold step.
  destruct (isHdr st && startswith ln hdrMark);
    [intros E; injection E as <-; auto|].
  destruct (classify ln);
    [intros E; injection E as <-; auto | intros E; injection E as <-; auto |].
  unfold fetch_times, flush, write_times; simpl. rewrite Hs.
  intros E.
  destruct (times st) as [|a [|b tl]]; simpl in E; bind_inv.
  subst. simpl in E.
  destruct (captions st) as [|c cs]; simpl in E;
    repeat (progress (bind_inv; subst; simpl in * )).
  - auto.
  - split; [|auto].
    apply Forall_app. split; [assumption | repeat constructor].
Qed.

Lemma loop_single_pairs (lines : list string) (st st' : state F)
    (e : option exn) :
  single_pairs st -> loop lines st = (st', e) -> single_pairs st'.
Proof.
  revert st; induction lines as [|ln lines IH]; simpl; intros st Hi E.
  - injection E as <- _. assumption.
  - destruct (step ln st) as [st1|x] eqn:Es.
    + exact (IH st1 (step_single_pairs ln st st1 Hi Es) E).
    + injection E as <- _. assumption.
Qed.

Lemma finish_single_pairs (st st' : state F) :
  single_pairs st -> finish st = Ok st' ->
  Forall (fun r => List.length (rec_times r) = 2%nat) (emitted st').
Proof.
  unfold single_pairs, finish, write_times. intros (Hs & Hf & Hl) E.
  destruct (captions st) as [|c cs]; bind_inv.
  - subst. assumption.
  - subst. simpl. apply Forall_app. split; [assumption|].
    repeat constructor. simpl.
    destruct (times st) as [|a [|b [|d tl]]]; simpl in *;
      bind_inv; subst; try reflexivity; destruct Hl; discriminate.
Qed.

(** The first metadata line, met with an empty caption buffer. *)
Lemma first_metadata_single_pairs (ln : string) (st st' : state F) :
  isSbv st = None -> captions st = [] -> emitted st = [] ->
  classify ln = Metadata ->
  step ln st = Ok st' ->
  isSbv st' = Some true \/ single_pairs st'.
Proof.
  unfold step. intros Hs Hc He Hm.
  rewrite (metadata_not_header ln Hm), andb_false_r, Hm.
  unfold fetch_times, flush; simpl. rewrite Hs, Hc.
  destruct (times st); simpl;
    [|intros E; bind_inv; discriminate].
  intros E. bind_inv. subst. simpl in *.
  match goal with
  | E : (if negb ?b then _ else _) = Ok _ |- _ => destruct b; simpl in E
  end; bind_inv; subst; simpl.
  - left. reflexivity.
  - right. unfold single_pairs; simpl. rewrite He. auto.
Qed.

Lemma single_records_are_pairs
    (pre : list string) (ln : string) (rest : list string)
    (ts0 : option F) (st : state F) (e : option exn) :
  no_metadata pre -> caption_text pre = [] -> classify ln = Metadata ->
  adjustSbv (pre ++ ln :: rest) ts0 = (st, e) ->
  isSbv st = Some false ->
  Forall (fun r => List.length (rec_times r) = 2%nat) (emitted st).
Proof.
  intros Hn Hc Hm E Hs. unfold adjustSbv in E.
  rewrite loop_app, (loop_no_metadata pre (init ts0) Hn) in E.
  simpl in E. fold (caption_text pre) in E. rewrite Hc in E.
  destruct (step ln _) as [st1|x] eqn:Es;
    [|injection E as <- _; discriminate].
  destruct (loop rest st1) as [st2 o] eqn:El.
  assert (Hk : isSbv st2 = Some false -> single_pairs st2).
  { intros Hs2.
    apply first_metadata_single_pairs in Es as [Hd|Hp];
      try reflexivity; try assumption.
    - rewrite (loop_isSbv_stable rest st1 st2 o true Hd El) in Hs2.
      discriminate.
    - exact (loop_single_pairs rest st1 st2 o Hp El). }
  destruct o as [y|].
  - injection E as <- _. apply Hk; assumption.
  - destruct (finish st2) as [st3|y] eqn:Ef; injection E as <- _.
    + apply (finish_single_pairs st2); [|assumption].
      apply Hk. rewrite <- (finish_isSbv st2 st3 Ef). assumption.
    + apply Hk; assumption.
Qed.

(** C4 (amended): under Single encoding, when no caption text precedes
    the first metadata line, every emitted record but the last has an
    end timestamp, the record emitted next has a start timestamp, and the
    two are the same.  The records of a run that ends with an exception
    are those written before it. *)
Theorem single_chaining_pairs
    (pre : list string) (ln : string) (rest : list string)
    (ts0 : option F) (st : state F) (e : option exn)
    (i : nat) (r1 r2 : caption_record F) :
  no_metadata pre -> caption_text pre = [] -> classify ln = Metadata ->
  adjustSbv (pre ++ ln :: rest) ts0 = (st, e) ->
  isSbv st = Some false ->
  nth_error (emitted st) i = Some r1 ->
  nth_error (emitted st) (S i) = Some r2 ->
  exists x, rec_end r1 = Some x /\ rec_start r2 = Some x.
Proof.
  intros Hn Hc Hm E Hs H1 H2.
  pose proof (single_boundary_shared _ _ _ _ i r1 r2 E Hs H1 H2) as Hsh.
  pose proof (single_records_are_pairs pre ln rest ts0 st e Hn Hc Hm E Hs)
    as Hp.
  rewrite Forall_forall in Hp.
  specialize (Hp r1 (nth_error_In _ _ H1)).
  unfold rec_end, rec_start in *.
  destruct (rec_times r1) as [|a [|b [|c l]]]; try discriminate.
  exists b. split; [reflexivity | rewrite <- Hsh; reflexivity].
Qed.

(** With a single timestamp pending, the code after the loop gives the
    final record the end [start + 5]. *)
Lemma finish_synthesizes_end (st : state F) (t : F) (s1 s2 : string) :
  times st = [t] -> captions st <> [] ->
  timestampStr t = Ok s1 -> timestampStr (fadd t (of_int 5)) = Ok s2 ->
  exists st',
    finish st = Ok st' /\
    emitted st' =
      emitted st ++ [mkRecord [t; fadd t (of_int 5)] (captions st)].
Proof.
  intros Ht Hc E1 E2. unfold finish, write_times.
  destruct (captions st) as [|c cs]; [congruence|].
  rewrite Ht; simpl. rewrite E1, E2; simpl.
  eexists. split; reflexivity.
Qed.

(** ** The field count of a metadata line *)

Lemma split_on_count (sep : ascii) (s : string) :
  snd (split_on sep s) <> [] -> str_mem sep s = true.
Proof.
  induction s as [|c s IH]; simpl; [congruence|].
  destruct (split_on sep s) as [h t].
  destruct (Ascii.eqb c sep); simpl in *; auto.
Qed.

Lemma split_count (sep : ascii) (s : string) :
  (1 < List.length (split sep s))%nat -> str_mem sep s = true.
Proof.
  unfold split. intros Hl. apply split_on_count.
  destruct (split_on sep s) as [h [|b t]]; simpl in *; [lia | discriminate].
Qed.

(** A character other than the separator stays in one of the fields. *)
Lemma split_keeps (sep c : ascii) (s : string) :
  c <> sep -> str_mem c s = true ->
  exists t, In t (split sep s) /\ str_mem c t = true.
Proof.
  intros Hc. unfold split.
  induction s as [|a s IH]; simpl; [discriminate|].
  destruct (split_on sep s) as [h t].
  intros Hm. destruct (Ascii.eqb_spec a sep) as [->|Ha].
  - destruct (Ascii.eqb_spec sep c) as [->|_]; [congruence|].
    destruct (IH Hm) as (u & Hu & Hcu). exists u. split; [right|]; assumption.
  - destruct (Ascii.eqb_spec a c) as [->|_]; simpl in Hm.
    + exists (String c h). split; [left; reflexivity|].
      simpl. rewrite Ascii.eqb_refl. reflexivity.
    + destruct (IH Hm) as (u & [<-|Hu] & Hcu).
      * exists (String a h). split; [left; reflexivity|].
        simpl. rewrite Hcu. apply orb_true_r.
      * exists u. split; [right|]; assumption.
Qed.

Lemma timestamp_loop_raises (toks : list string) (t : string) :
  In t toks -> raises (float_of_str t) ->
  forall acc mul, raises (timestamp_loop toks acc mul).
Proof.
  intros Hin [e He]. induction toks as [|u toks IH]; [contradiction|].
  intros acc mul. simpl.
  destruct Hin as [->|Hin].
  - rewrite He. exists e. reflexivity.
  - destruct (float_of_str u) as [x|e1]; simpl; [|exists e1; reflexivity].
    destruct (fmul_int x mul) as [y|e2]; simpl; [|exists e2; reflexivity].
    apply IH. assumption.
Qed.

Section Separator.

(** No number has a comma in it. *)
Hypothesis float_rejects_comma :
  forall s, str_mem timeSep s = true -> raises (float_of_str s).

Lemma timestamp_rejects_comma (s : string) :
  str_mem timeSep s = true -> raises (timestamp s).
Proof.
  intros Hm. unfold timestamp.
  destruct (split_keeps ":" timeSep s) as (t & Ht & Hct);
    [discriminate | assumption |].
  apply (timestamp_loop_raises _ t).
  - apply in_rev in Ht. assumption.
  - apply float_rejects_comma. assumption.
Qed.


End Separator.

End Properties.

(** ** No float is read from text with a comma *)

Module LiteralFacts.

Lemma lstrip_keeps (c : ascii) (s : string) :
  isspace_float c = false -> str_mem c s = true ->
  str_mem c (float_lstrip s) = true.
Proof.
  intros Hc. induction s as [|a s IH]; simpl; [discriminate|].
  destruct (isspace_float a) eqn:Ea.
  - destruct (Ascii.eqb_spec a c) as [->|_]; [congruence | exact IH].
  - simpl. trivial.
Qed.

Lemma rstrip_keeps (c : ascii) (s : string) :
  isspace_float c = false -> str_mem c s = true ->
  str_mem c (float_rstrip s) = true.
Proof.
  intros Hc. induction s as [|a s IH]; simpl; [discriminate|].
  destruct (Ascii.eqb_spec a c) as [->|Ha]; simpl.
  - intros _. destruct (float_rstrip s); [rewrite Hc|];
      simpl; rewrite Ascii.eqb_refl; reflexivity.
  - intros Hm. specialize (IH Hm).
    destruct (float_rstrip s) as [|b r]; [discriminate|].
    simpl in *. rewrite IH. apply orb_true_r.
Qed.

Lemma digits_val_comma (s : string) (acc : Z) :
  str_mem timeSep s = true -> Literal.digits_val acc s = None.
Proof.
  revert acc; induction s as [|a s IH]; simpl; intros acc; [discriminate|].
  destruct (Ascii.eqb_spec a timeSep) as [->|_]; simpl.
  - reflexivity.
  - intros Hm. destruct (Literal.digit_val a); [apply IH; assumption | reflexivity].
Qed.

Lemma parse_decimal_comma (s : string) :
  str_mem timeSep s = true -> Literal.parse_decimal s = None.
Proof.
  intros Hm. unfold Literal.parse_decimal.
  destruct (split_keeps "." timeSep s) as (t & Ht & Hct);
    [discriminate | assumption |].
  destruct (split "." s) as [|i [|f [|g l]]]; try reflexivity.
  - destruct Ht as [<-|[]].
    rewrite (digits_val_comma _ 0 Hct). destruct (is_empty i); reflexivity.
  - destruct (is_empty i && is_empty f); [reflexivity|].
    destruct Ht as [<-|[<-|[]]]; rewrite (digits_val_comma _ 0 Hct).
    + reflexivity.
    + destruct (Literal.digits_val 0 i); reflexivity.
Qed.

Lemma drop_underscores_keeps (s : string) :
  forall prev b,
    Literal.drop_underscores prev s = Some b ->
    str_mem timeSep s = true -> str_mem timeSep b = true.
Proof.
  induction s as [|a s IH]; simpl; intros prev b E Hm; [discriminate|].
  destruct (Ascii.eqb_spec a "_") as [->|Hu].
  - simpl in Hm.
    destruct (prev && Literal.starts_with_digit s); [|discriminate].
    exact (IH false b E Hm).
  - destruct (Literal.drop_underscores (Literal.is_digit_char a) s) as [r|] eqn:Er;
      [|discriminate].
    injection E as <-. simpl.
    destruct (Ascii.eqb a timeSep); [reflexivity|].
    simpl in Hm. exact (IH _ r Er Hm).
Qed.

Lemma parse_exponent_comma (s : string) :
  str_mem timeSep s = true -> Literal.parse_exponent s = None.
Proof.
  unfold Literal.parse_exponent, Literal.parse_digits.
  destruct s as [|c r]; [discriminate|]. intros Hm.
  destruct (Ascii.eqb_spec c "-") as [->|_];
    [|destruct (Ascii.eqb_spec c "+") as [->|_]].
  - simpl in Hm. rewrite (digits_val_comma _ 0 Hm).
    destruct (is_empty r); reflexivity.
  - simpl in Hm. rewrite (digits_val_comma _ 0 Hm).
    destruct (is_empty r); reflexivity.
  - rewrite (digits_val_comma _ 0 Hm). reflexivity.
Qed.

Lemma split_exp_keeps (s : string) :
  str_mem timeSep s = true ->
  str_mem timeSep (fst (Literal.split_exp s)) = true \/
  exists ex,
    snd (Literal.split_exp s) = Some ex /\ str_mem timeSep ex = true.
Proof.
  induction s as [|a s IH]; simpl; [discriminate|]. intros Hm.
  destruct (Ascii.eqb_spec a "e") as [->|_];
    [|destruct (Ascii.eqb_spec a "E") as [->|_]]; simpl.
  - right. exists s. split; [reflexivity | exact Hm].
  - right. exists s. split; [reflexivity | exact Hm].
  - destruct (Literal.split_exp s) as [m e]. simpl in *.
    destruct (Ascii.eqb a timeSep); simpl in *; [left; reflexivity|].
    destruct (IH Hm) as [Hl|Hr]; [left; exact Hl | right; exact Hr].
Qed.

Lemma parse_number_comma (s : string) :
  str_mem timeSep s = true -> Literal.parse_number s = None.
Proof.
  intros Hm. unfold Literal.parse_number.
  destruct (Literal.drop_underscores false s) as [b|] eqn:Eb; [|reflexivity].
  pose proof (drop_underscores_keeps s false b Eb Hm) as Hb.
  destruct (split_exp_keeps b Hb) as [Hl|(ex & He & Hx)];
    destruct (Literal.split_exp b) as [m e]; simpl in *.
  - rewrite (parse_decimal_comma _ Hl). reflexivity.
  - subst e. rewrite (parse_exponent_comma _ Hx).
    destruct (Literal.parse_decimal m); reflexivity.
Qed.

Lemma lower_ascii_keeps (s : string) :
  str_mem timeSep s = true ->
  str_mem timeSep (Binary64.lower_ascii s) = true.
Proof.
  induction s as [|a s IH]; simpl; [discriminate|].
  destruct (Ascii.eqb_spec a timeSep) as [->|_]; simpl.
  - intros _. reflexivity.
  - intros Hm. rewrite (IH Hm). apply orb_true_r.
Qed.

Lemma parse_inf_or_nan_comma (s : string) :
  str_mem timeSep s = true -> Binary64.parse_inf_or_nan s = None.
Proof.
  intros Hm. apply lower_ascii_keeps in Hm.
  unfold Binary64.parse_inf_or_nan.
  destruct (String.eqb_spec (Binary64.lower_ascii s) "inf") as [E|_];
    [rewrite E in Hm; discriminate|].
  destruct (String.eqb_spec (Binary64.lower_ascii s) "infinity") as [E|_];
    [rewrite E in Hm; discriminate|].
  destruct (String.eqb_spec (Binary64.lower_ascii s) "nan") as [E|_];
    [rewrite E in Hm; discriminate|].
  reflexivity.
Qed.

Lemma of_str_comma (s : string) :
  str_mem timeSep s = true -> raises (Binary64.of_str s).
Proof.
  intros Hm. unfold Binary64.of_str, float_strip.
  assert (Hb : str_mem timeSep (float_rstrip (float_lstrip s)) = true)
    by (apply rstrip_keeps, lstrip_keeps; auto).
  destruct (float_rstrip (float_lstrip s)) as [|c r]; [discriminate|].
  destruct (Ascii.eqb_spec c "-") as [->|_];
    [|destruct (Ascii.eqb_spec c "+") as [->|_]].
  - simpl in Hb.
    rewrite (parse_number_comma _ Hb), (parse_inf_or_nan_comma _ Hb).
    exists ValueError; reflexivity.
  - simpl in Hb.
    rewrite (parse_number_comma _ Hb), (parse_inf_or_nan_comma _ Hb).
    exists ValueError; reflexivity.
  - rewrite (parse_number_comma _ Hb), (parse_inf_or_nan_comma _ Hb).
    exists ValueError; reflexivity.
Qed.

End LiteralFacts.

(** * The scenarios, evaluated *)

Section Scenarios.

Local Open Scope Q_scope.

(** Evaluates the program on a closed input, one conjunct at a time. *)
Ltac run_program :=
  repeat match goal with
    | |- exists _, _ => eexists
    | |- _ /\ _ => split
    | |- _ = _ => vm_compute; reflexivity
    end.

(** C5: the Single scenario without realignment yields the records
    (0, 5, Hello) and, at the end of the stream, (5, 10, World). *)
Theorem single_scenario :
  exists st,
    adjustSbv single_input None = (st, None) /\
    emitted st = [mkRecord (map Binary64.of_Q [0; 5]) [line "Hello"];
                  mkRecord (map Binary64.of_Q [5; 10]) [line "World"]] /\
    fout st = [line "0:00:00.000,0:00:05.000"; line "Hello"; nl;
               line "0:00:05.000,0:00:10.000"; line "World"].
Proof.
  run_program.
Qed.

(** C1 (defect of the code): on the Dual scenario with target start 0 the
    offset is computed, 10, but the first pair is never stored: the second
    metadata line fails the assertion on the pending pair and nothing is
    written. *)
Theorem dual_scenario_raises :
  exists st,
    adjustSbv dual_input (Some (Binary64.of_Q 0))
    = (st, Some AssertionError) /\
    ts st = Some (Binary64.of_Q 10) /\
    times st = [] /\
    captions st = [line "Hello"] /\
    emitted st = [] /\
    fout st = [].
Proof.
  run_program.
Qed.

(** C2 (defect of the code): the text 0.0625 parses to 1/16, is written
    with the milliseconds 62 filled on the right, and reads back as the
    float of 0.62, more than half a second away. *)
Theorem roundtrip_fills_right :
  timestamp "0.0625" = Ok (Binary64.of_Q (1 # 16)) /\
  timestampStr (Binary64.of_Q (1 # 16)) = Ok "0:00:00.620"%string /\
  roundtrip "0.0625" = Ok (Binary64.of_Q (31 # 50)) /\
  ~ Qabs (Binary64.to_Q (Binary64.of_Q (31 # 50))
          - Binary64.to_Q (Binary64.of_Q (1 # 16))) <= 1 # 1000.
Proof.
  run_program.
  intros Hle. vm_compute in Hle. apply Hle. reflexivity.
Qed.

(** C3 (defect of the code): with target start 0 the offset is 10; the
    pair written at the next metadata line is shifted, (0, 2), and the
    pair written at the end of the stream is not, (15, 18). *)
Theorem dual_final_record_not_shifted :
  exists st,
    adjustSbv dual_input_after_text (Some (Binary64.of_Q 0)) = (st, None) /\
    ts st = Some (Binary64.of_Q 10) /\
    emitted st = [mkRecord [] [line "Intro"];
                  mkRecord (map Binary64.of_Q [0; 2]) [line "Hello"];
                  mkRecord (map Binary64.of_Q [15; 18]) [line "World"]] /\
    fout st = [nl; line "Intro"; nl;
               line "0:00:00.000,0:00:02.000"; line "Hello"; nl;
               line "0:00:15.000,0:00:18.000"; line "World"].
Proof.
  run_program.
Qed.

(** C6 (defect of the code): a Single input that ends with buffered text
    after two timestamps with no text between them gets the final record
    (0, 7), not (7, 12): its end is not its start plus 5. *)
Theorem single_final_record_not_synthesized :
  exists st,
    adjustSbv single_input_no_text_between None = (st, None) /\
    isSbv st = Some false /\
    emitted st = [mkRecord (map Binary64.of_Q [0; 7]) [line "Hello"]] /\
    fadd (Binary64.of_Q 0) (of_int 5) <> Binary64.of_Q 7.
Proof.
  run_program.
  vm_compute. discriminate.
Qed.

(** C7 (defect of the code): a metadata line met with an empty caption
    buffer under Single encoding does not replace the pending boundary:
    after 0:00 and 0:00:07 both timestamps are pending, and a third
    metadata line fails the assertion that a single one is. *)
Theorem single_pending_not_advanced :
  (exists st,
     loop [line "0:00"; line "0:00:07"] (init None) = (st, None) /\
     isSbv st = Some false /\
     times st = map Binary64.of_Q [0; 7]) /\
  snd (adjustSbv [line "0:00"; line "0:00:07"; line "0:00:09"] None)
  = Some AssertionError.
Proof.
  run_program.
Qed.

(** C4 (counterexample): with caption text in front of the first
    metadata line, a Single input gives a first record with the one
    timestamp 5 and a second record with none: the first has no end
    timestamp and the second no start timestamp to be equal to it. *)
Lemma single_text_first_unchained :
  exists st,
    adjustSbv single_input_after_text None = (st, None) /\
    isSbv st = Some false /\
    emitted st = [mkRecord [Binary64.of_Q 5] [line "Intro"];
                  mkRecord [] [line "Hello"]] /\
    fout st = [line "0:00:05.000"; line "Intro"; nl; nl; line "Hello"] /\
    ~ (exists x,
         rec_end (mkRecord [Binary64.of_Q 5] [line "Intro"]) = Some x /\
         rec_start (mkRecord [] [line "Hello"]) = Some x).
Proof.
  run_program.
  intros (x & Hx & _). discriminate Hx.
Qed.


(** C9 (counterexample): an input of a header line, a blank line and a
    text line has no metadata line, and [adjustSbv] raises nothing on
    it. *)
Lemma text_only_raises_nothing :
  no_metadata text_only_input /\
  snd (adjustSbv (F:=spec_float) text_only_input None) = None.
Proof.
  split; [|vm_compute; reflexivity].
  repeat constructor; vm_compute; discriminate.
Qed.

End Scenarios.

(** * The general theorems at the scenarios *)

Section Witnesses.

Local Open Scope Q_scope.

(** [single_chaining_pairs] on the Single scenario: the first record ends
    where the second one starts, at 5. *)
Lemma single_chaining_pairs_witness :
  no_metadata [] /\
  caption_text [] = [] /\
  classify (line "0:00") = Metadata /\
  isSbv (fst (adjustSbv (F:=spec_float) single_input None)) = Some false /\
  nth_error (emitted (fst (adjustSbv single_input None))) 0
  = Some (mkRecord (map Binary64.of_Q [0; 5]) [line "Hello"]) /\
  nth_error (emitted (fst (adjustSbv single_input None))) 1
  = Some (mkRecord (map Binary64.of_Q [5; 10]) [line "World"]) /\
  exists x,
    rec_end (mkRecord (map Binary64.of_Q [0; 5]) [line "Hello"]) = Some x /\
    rec_start (mkRecord (map Binary64.of_Q [5; 10]) [line "World"]) = Some x.
Proof.
  split; [constructor|].
  split; [reflexivity|].
  split; [vm_compute; reflexivity|].
  split; [vm_compute; reflexivity|].
  split; [vm_compute; reflexivity|].
  split; [vm_compute; reflexivity|].
  apply (single_chaining_pairs []
           (line "0:00") [line "Hello"; line "0:00:05"; line "World"] None
           (fst (adjustSbv single_input None)) None 0).
  - constructor.
  - reflexivity.
  - vm_compute; reflexivity.
  - vm_compute; reflexivity.
  - vm_compute; reflexivity.
  - vm_compute; reflexivity.
  - vm_compute; reflexivity.
Defined.


(** [no_metadata_completes] on the input of a header line, a blank line
    and a text line. *)
Lemma no_metadata_completes_witness :
  no_metadata text_only_input /\
  exists st,
    adjustSbv (F:=spec_float) text_only_input None = (st, None) /\
    fout st = [nl; line "Hello"] /\
    emitted st = [mkRecord [] [line "Hello"]].
Proof.
  assert (Hn : no_metadata text_only_input)
    by (repeat constructor; vm_compute; discriminate).
  split; [exact Hn|].
  exact (no_metadata_completes text_only_input None Hn).
Defined.

(** [text_before_dual_metadata] on the text line Intro followed by the
    first pair of the Dual scenario. *)
Lemma text_before_dual_metadata_witness :
  no_metadata [line "Intro"] /\
  caption_text [line "Intro"] <> [] /\
  classify (line "0:00:10.000,0:00:12.000") = Metadata /\
  exists st,
    loop ([line "Intro"] ++ [line "0:00:10.000,0:00:12.000"])
      (init (Some (Binary64.of_Q 0))) = (st, None) /\
    fout st = [nl] ++ caption_text [line "Intro"] ++ [nl] /\
    emitted st = [mkRecord [] (caption_text [line "Intro"])] /\
    isSbv st = Some true /\
    times st = [Binary64.of_Q 10; Binary64.of_Q 12] /\
    captions st = [].
Proof.
  assert (Hn : no_metadata [line "Intro"])
    by (repeat constructor; vm_compute; discriminate).
  assert (Hc : caption_text [line "Intro"] <> [])
    by (vm_compute; discriminate).
  assert (Hm : classify (line "0:00:10.000,0:00:12.000") = Metadata)
    by (vm_compute; reflexivity).
  split; [exact Hn|]. split; [exact Hc|]. split; [exact Hm|].
  apply (text_before_dual_metadata [line "Intro"]
           (line "0:00:10.000,0:00:12.000")
           "0:00:10.000" (line "0:00:12.000")
           (Binary64.of_Q 10) (Binary64.of_Q 12) (Some (Binary64.of_Q 0))
           Hn Hc Hm);
    vm_compute; reflexivity.
Defined.

End Witnesses.

(** * Further properties of [adjustSbv] *)

Section Realigner.

Context {F : Type} {PF : PyFloat F}.

Ltac bind_inv :=
  repeat match goal with
    | E : bind _ _ = Ok _ |- _ =>
        apply bind_Ok in E; destruct E as (? & ? & E)
    | E : assert _ = Ok _ |- _ => apply assert_Ok in E
    | E : Raise _ = Ok _ |- _ => discriminate E
    | E : Ok _ = Ok _ |- _ => injection E as E
    end.

Ltac bind_all := repeat (progress (bind_inv; subst; simpl in * )).

(** ** Header and blank lines *)

Lemma step_header (ln : string) (st : state F) :
  isHdr st = true -> startswith ln hdrMark = true -> step ln st = Ok st.
Proof.
  intros Hh Hs. unfold step. rewrite Hh, Hs. reflexivity.
Qed.

Lemma loop_header (hdr lines : list string) (st : state F) :
  isHdr st = true ->
  Forall (fun ln => startswith ln hdrMark = true) hdr ->
  loop (hdr ++ lines) st = loop lines st.
Proof.
  intros Hh Hf. induction Hf as [|ln hdr Hs Hf IH]; simpl.
  - reflexivity.
  - rewrite (step_header ln st Hh Hs). exact IH.
Qed.

(** X1: the header comments, the lines in front of the first line that
    does not start with the mark, change nothing. *)
Theorem header_lines_ignored (hdr lines : list string) (ts0 : option F) :
  Forall (fun ln => startswith ln hdrMark = true) hdr ->
  adjustSbv (hdr ++ lines) ts0 = adjustSbv lines ts0.
Proof.
  intros Hf. unfold adjustSbv.
  rewrite (loop_header hdr lines (init ts0) eq_refl Hf). reflexivity.
Qed.

Lemma fetch_times_isHdr (ln : string) (st st1 : state F)
    (tn : option (list F)) :
  fetch_times ln st = Ok (st1, tn) -> isHdr st1 = isHdr st.
Proof.
  unfold fetch_times. intros E.
  destruct (isSbv st) as [[|]|]; bind_all; reflexivity.
Qed.

Lemma flush_isHdr (tn : option (list F)) (st st' : state F) :
  flush tn st = Ok st' -> isHdr st' = isHdr st.
Proof.
  unfold flush, write_times. intros E.
  destruct (captions st); bind_all; reflexivity.
Qed.

Lemma step_isHdr (ln : string) (st st' : state F) :
  step ln st = Ok st' -> isHdr st' = isHdr st && startswith ln hdrMark.
Proof.
  unfold step. intros E.
  destruct (isHdr st && startswith ln hdrMark) eqn:Eh.
  - injection E as <-. apply andb_true_iff in Eh as [Hh _]. exact Hh.
  - destruct (classify ln).
    + injection E as <-. reflexivity.
    + injection E as <-. reflexivity.
    + apply bind_Ok in E. destruct E as ([st1 tn] & E1 & E2).
      rewrite (flush_isHdr _ _ _ E2), (fetch_times_isHdr _ _ _ _ E1).
      reflexivity.
Qed.

Lemma loop_isHdr (lines : list string) (st st' : state F) :
  loop lines st = (st', None) ->
  isHdr st = false \/ Exists (fun ln => startswith ln hdrMark = false) lines ->
  isHdr st' = false.
Proof.
  revert st; induction lines as [|ln lines IH]; simpl; intros st E Hx.
  - injection E as <-. destruct Hx as [Hx|Hx]; [exact Hx | inversion Hx].
  - destruct (step ln st) as [st1|x] eqn:Es; [|discriminate].
    apply (IH st1 E). apply step_isHdr in Es.
    destruct Hx as [Hx|Hx].
    + left. rewrite Es, Hx. reflexivity.
    + inversion Hx as [? ? Hn|? ? Hn]; subst.
      * left. rewrite Es, Hn. apply andb_false_r.
      * right. exact Hn.
Qed.

Lemma step_blank (ln : string) (st : state F) :
  isHdr st = false -> classify ln = Blank -> step ln st = Ok st.
Proof.
  intros Hh Hc. unfold step. rewrite Hh, Hc. simpl.
  destruct st; simpl in *; subst; reflexivity.
Qed.

(** X2: a blank line that comes after a line that is no header comment
    changes nothing. *)
Theorem blank_line_ignored (l1 l2 : list string) (b : string)
    (ts0 : option F) :
  Exists (fun ln => startswith ln hdrMark = false) l1 ->
  classify b = Blank ->
  adjustSbv (l1 ++ b :: l2) ts0 = adjustSbv (l1 ++ l2) ts0.
Proof.
  intros Hx Hb. unfold adjustSbv. rewrite !loop_app.
  destruct (loop l1 (init ts0)) as [st [x|]] eqn:El; [reflexivity|].
  simpl. rewrite (step_blank b st); [reflexivity | | exact Hb].
  apply (loop_isHdr l1 (init ts0) st El). right. exact Hx.
Qed.

(** ** The encoding *)

(** X3: the encoding detected on a prefix of the input is the encoding
    at the end of the run. *)
Theorem encoding_stable (l1 l2 : list string) (ts0 : option F)
    (st1 : state F) (b : bool) :
  loop l1 (init ts0) = (st1, None) -> isSbv st1 = Some b ->
  isSbv (fst (adjustSbv (l1 ++ l2) ts0)) = Some b.
Proof.
  intros El Hs. unfold adjustSbv. rewrite loop_app, El.
  destruct (loop l2 st1) as [st2 [x|]] eqn:El2; simpl.
  - exact (loop_isSbv_stable l2 st1 st2 _ b Hs El2).
  - pose proof (loop_isSbv_stable l2 st1 st2 _ b Hs El2) as Hs2.
    destruct (finish st2) as [st3|x] eqn:Ef; simpl; [|exact Hs2].
    rewrite (finish_isSbv st2 st3 Ef). exact Hs2.
Qed.

(** ** What a step writes *)

Lemma fetch_times_keeps (ln : string) (st st1 : state F)
    (tn : option (list F)) :
  fetch_times ln st = Ok (st1, tn) ->
  emitted st1 = emitted st /\ fout st1 = fout st /\
  captions st1 = captions st.
Proof.
  unfold fetch_times. intros E.
  destruct (isSbv st) as [[|]|]; bind_all; auto.
Qed.

Lemma flush_writes (tn : option (list F)) (st st' : state F) :
  flush tn st = Ok st' ->
  (captions st = [] /\ st' = st) \/
  (captions st <> [] /\ captions st' = [] /\
   exists strs,
     mapM timestampStr (times st) = Ok strs /\
     emitted st' = emitted st ++ [mkRecord (times st) (captions st)] /\
     fout st' =
       fout st ++
       ((join (String timeSep EmptyString) strs ++ nl)%string
          :: captions st) ++ [nl]).
Proof.
  unfold flush, write_times. intros E.
  destruct (captions st) as [|c cs] eqn:Ec.
  - left. injection E as <-. auto.
  - right. split; [discriminate|].
    apply bind_Ok in E. destruct E as (st1 & E1 & E).
    apply bind_Ok in E1. destruct E1 as (strs & E1 & E0).
    injection E0 as <-. simpl in E.
    apply bind_Ok in E. destruct E as (tm & _ & E).
    injection E as <-. simpl. split; [reflexivity|].
    exists strs. rewrite <- !app_assoc. auto.
Qed.

(** A step either writes nothing, and buffers the line if it is text, or
    writes one record: the pending timestamps and the buffered text. *)
Lemma step_writes (ln : string) (st st' : state F) :
  step ln st = Ok st' ->
  (emitted st' = emitted st /\ fout st' = fout st /\
   captions st' =
     captions st ++
       (if isHdr st && startswith ln hdrMark then []
        else if is_text ln then [ln] else [])) \/
  (isHdr st && startswith ln hdrMark = false /\ is_text ln = false /\
   captions st <> [] /\ captions st' = [] /\
   exists tm strs,
     mapM timestampStr tm = Ok strs /\
     emitted st' = emitted st ++ [mkRecord tm (captions st)] /\
     fout st' =
       fout st ++
       ((join (String timeSep EmptyString) strs ++ nl)%string
          :: captions st) ++ [nl]).
Proof.
  unfold step, is_text. intros E.
  destruct (isHdr st && startswith ln hdrMark) eqn:Eh.
  - injection E as <-. left. rewrite app_nil_r. auto.
  - destruct (classify ln) eqn:Ec.
    + injection E as <-. left. simpl. rewrite app_nil_r. auto.
    + injection E as <-. left. simpl. auto.
    + apply bind_Ok in E. destruct E as ([st1 tn] & E1 & E2).
      apply fetch_times_keeps in E1 as (He & Hf & Hc). simpl in *.
      apply flush_writes in E2 as [[Hn ->]|(Hn & Hn' & strs & Hm & He' & Hf')].
      * left. rewrite He, Hf, Hc, app_nil_r. auto.
      * right. rewrite Hc in *. rewrite He in He'. rewrite Hf in Hf'.
        repeat split; auto. eauto.
Qed.

Lemma finish_writes (st st' : state F) :
  finish st = Ok st' ->
  (captions st = [] /\ st' = st) \/
  (captions st <> [] /\
   exists tm strs,
     mapM timestampStr tm = Ok strs /\
     emitted st' = emitted st ++ [mkRecord tm (captions st)] /\
     fout st' =
       fout st ++
       (join (String timeSep EmptyString) strs ++ nl)%string
         :: captions st).
Proof.
  unfold finish, write_times. intros E.
  destruct (captions st) as [|c cs] eqn:Ec.
  - left. injection E as <-. auto.
  - right. split; [discriminate|].
    apply bind_Ok in E. destruct E as (tm & _ & E).
    apply bind_Ok in E. destruct E as (st1 & E1 & E).
    apply bind_Ok in E1. destruct E1 as (strs & E1 & E0).
    injection E0 as <-. injection E as <-. simpl in *.
    exists tm, strs. rewrite <- app_assoc. auto.
Qed.

(** ** No negative timestamp is written *)

Lemma mapM_timestampStr_nonneg (l : list F) (strs : list string) :
  mapM timestampStr l = Ok strs -> Forall (fun t => fge0 t = true) l.
Proof.
  revert strs; induction l as [|t l IH]; simpl; intros strs E.
  - constructor.
  - apply bind_Ok in E. destruct E as (s & E1 & E).
    apply bind_Ok in E. destruct E as (ss & E2 & _).
    constructor; [|exact (IH ss E2)].
    unfold timestampStr in E1. apply bind_Ok in E1.
    destruct E1 as (u & E1 & _). exact (assert_Ok _ _ E1).
Qed.

Lemma loop_nonneg (lines : list string) (st st' : state F)
    (e : option exn) :
  Forall (fun r => Forall (fun t => fge0 t = true) (rec_times r))
    (emitted st) ->
  loop lines st = (st', e) ->
  Forall (fun r => Forall (fun t => fge0 t = true) (rec_times r))
    (emitted st').
Proof.
  revert st; induction lines as [|ln lines IH]; simpl; intros st Hi E.
  - injection E as <- _. exact Hi.
  - destruct (step ln st) as [st1|x] eqn:Es.
    + apply (IH st1); [|exact E].
      apply step_writes in Es
        as [(-> & _)|(_ & _ & _ & _ & tm & strs & Hm & -> & _)];
        [exact Hi|].
      apply Forall_app. split; [exact Hi|].
      constructor; [|constructor].
      exact (mapM_timestampStr_nonneg tm strs Hm).
    + injection E as <- _. exact Hi.
Qed.

(** X4: every timestamp of every record written is non-negative,
    whatever the input and the target start time, also in a run that
    ends with an exception. *)
Theorem emitted_times_nonneg (lines : list string) (ts0 : option F) :
  Forall (fun r => Forall (fun t => fge0 t = true) (rec_times r))
    (emitted (fst (adjustSbv lines ts0))).
Proof.
  unfold adjustSbv.
  destruct (loop lines (init ts0)) as [st e] eqn:El.
  assert (Hi : Forall (fun r => Forall (fun t => fge0 t = true) (rec_times r))
                 (emitted st))
    by (apply (loop_nonneg lines (init ts0) st e); [constructor | exact El]).
  destruct e as [x|]; [exact Hi|].
  destruct (finish st) as [st'|x] eqn:Ef; [|exact Hi].
  simpl. apply finish_writes in Ef
    as [[_ ->]|(_ & tm & strs & Hm & -> & _)]; [exact Hi|].
  apply Forall_app. split; [exact Hi|].
  constructor; [|constructor].
  exact (mapM_timestampStr_nonneg tm strs Hm).
Qed.

(** ** The output only grows *)

Lemma loop_fout_grows (lines : list string) (st st' : state F)
    (e : option exn) :
  loop lines st = (st', e) -> exists more, fout st' = fout st ++ more.
Proof.
  revert st; induction lines as [|ln lines IH]; simpl; intros st E.
  - injection E as <- _. exists []. rewrite app_nil_r. reflexivity.
  - destruct (step ln st) as [st1|x] eqn:Es.
    + destruct (IH st1 E) as [more Hm].
      apply step_writes in Es
        as [(_ & Hf & _)|(_ & _ & _ & _ & tm & strs & _ & _ & Hf)];
        rewrite Hm, Hf; [eauto|].
      rewrite <- app_assoc. eauto.
    + injection E as <- _. exists []. rewrite app_nil_r. reflexivity.
Qed.

(** X5: what is written while a prefix of the input is read stays: the
    output of the whole run, also of one that ends with an exception,
    starts with it. *)
Theorem output_append_only (l1 l2 : list string) (ts0 : option F) :
  exists more,
    fout (fst (adjustSbv (l1 ++ l2) ts0)) =
    fout (fst (loop l1 (init ts0))) ++ more.
Proof.
  unfold adjustSbv. rewrite loop_app.
  destruct (loop l1 (init ts0)) as [st1 [x|]] eqn:E1; simpl.
  - exists []. rewrite app_nil_r. reflexivity.
  - destruct (loop l2 st1) as [st2 e] eqn:E2.
    destruct (loop_fout_grows l2 st1 st2 e E2) as [more Hm].
    destruct e as [x|]; simpl; [eauto|].
    destruct (finish st2) as [st3|x] eqn:Ef; simpl; [|eauto].
    apply finish_writes in Ef
      as [[_ ->]|(_ & tm & strs & _ & _ & Hf)]; [eauto|].
    rewrite Hf, Hm, <- app_assoc. eauto.
Qed.

(** ** No caption text is lost *)

Lemma loop_keeps_text (lines : list string) (st st' : state F) :
  loop lines st = (st', None) ->
  List.concat (map rec_lines (emitted st')) ++ captions st' =
  List.concat (map rec_lines (emitted st)) ++ captions st ++
    filter is_text (if isHdr st then skip_header lines else lines).
Proof.
  revert st; induction lines as [|ln lines IH]; simpl; intros st E.
  - injection E as <-. destruct (isHdr st); rewrite app_nil_r; reflexivity.
  - destruct (step ln st) as [st1|x] eqn:Es; [|discriminate].
    rewrite (IH st1 E). pose proof (step_isHdr ln st st1 Es) as Hh.
    apply step_writes in Es
      as [(He & _ & Hc)|(Hn & Ht & _ & Hc & tm & strs & _ & He & _)].
    + rewrite He, Hc, Hh.
      destruct (isHdr st); simpl.
      * destruct (startswith ln hdrMark); simpl.
        -- rewrite app_nil_r. reflexivity.
        -- destruct (is_text ln); simpl; rewrite <- !app_assoc; reflexivity.
      * destruct (is_text ln); simpl; rewrite <- !app_assoc; reflexivity.
    + rewrite He, Hc, Hh, Hn, map_app, concat_app. simpl.
      rewrite app_nil_r, <- !app_assoc.
      destruct (isHdr st); simpl in *; rewrite ?Hn, ?Ht; simpl;
        rewrite ?Ht; reflexivity.
Qed.

(** X6: in a run that raises nothing, the text lines of the records
    written, one record after the other, are the caption text lines of
    the input, all of them and in their order. *)
Theorem caption_text_kept (lines : list string) (ts0 : option F)
    (st : state F) :
  adjustSbv lines ts0 = (st, None) ->
  List.concat (map rec_lines (emitted st)) = caption_text lines.
Proof.
  unfold adjustSbv. intros E.
  destruct (loop lines (init ts0)) as [st1 [x|]] eqn:El; [discriminate|].
  destruct (finish st1) as [st2|x] eqn:Ef; [|discriminate].
  injection E as <-.
  pose proof (loop_keeps_text lines (init ts0) st1 El) as Hk.
  simpl in Hk. fold (caption_text lines) in Hk.
  apply finish_writes in Ef
    as [[Hn ->]|(_ & tm & strs & _ & He & _)].
  - rewrite Hn, app_nil_r in Hk. exact Hk.
  - rewrite He, map_app, concat_app. simpl. rewrite app_nil_r. exact Hk.
Qed.

(** ** The output file and the records *)

Lemma mapM_snoc {A B : Type} (f : A -> res B) (l : list A) (a : A)
    (bs : list B) (b : B) :
  mapM f l = Ok bs -> f a = Ok b -> mapM f (l ++ [a]) = Ok (bs ++ [b]).
Proof.
  revert bs; induction l as [|x l IH]; simpl; intros bs E Ea.
  - injection E as <-. rewrite Ea. reflexivity.
  - apply bind_Ok in E. destruct E as (y & Ey & E).
    apply bind_Ok in E. destruct E as (ys & Eys & E).
    injection E as <-. rewrite Ey; simpl.
    rewrite (IH ys Eys Ea). reflexivity.
Qed.

Lemma separated_snoc (blocks : list (list string)) (b : list string) :
  separated (blocks ++ [b]) = separated blocks ++ b ++ [nl].
Proof.
  unfold separated. rewrite map_app, concat_app. simpl.
  rewrite app_nil_r. reflexivity.
Qed.

Lemma loop_rendered (lines : list string) (st st' : state F)
    (e : option exn) (blocks : list (list string)) :
  mapM render_record (emitted st) = Ok blocks ->
  fout st = separated blocks ->
  loop lines st = (st', e) ->
  exists blocks',
    mapM render_record (emitted st') = Ok blocks' /\
    fout st' = separated blocks'.
Proof.
  revert st blocks; induction lines as [|ln lines IH]; simpl;
    intros st blocks Hr Hf E.
  - injection E as <- _. eauto.
  - destruct (step ln st) as [st1|x] eqn:Es.
    + apply step_writes in Es
        as [(He & Hf1 & _)|(_ & _ & _ & _ & tm & strs & Hm & He & Hf1)].
      * apply (IH st1 blocks); [rewrite He; exact Hr | congruence | exact E].
      * apply (IH st1 (blocks ++
                 [(join (String timeSep EmptyString) strs ++ nl)%string
                    :: captions st])); [| |exact E].
        -- rewrite He. apply mapM_snoc; [exact Hr|].
           unfold render_record; simpl. rewrite Hm. reflexivity.
        -- rewrite Hf1, Hf, separated_snoc. reflexivity.
    + injection E as <- _. eauto.
Qed.

Lemma finish_captions (st st' : state F) :
  finish st = Ok st' -> captions st' = captions st.
Proof.
  unfold finish, write_times. intros E.
  destruct (captions st) as [|c cs] eqn:Ec.
  - injection E as <-. exact Ec.
  - apply bind_Ok in E. destruct E as (tm & _ & E).
    apply bind_Ok in E. destruct E as (st1 & E1 & E).
    apply bind_Ok in E1. destruct E1 as (strs & _ & E0).
    injection E0 as <-. injection E as <-. reflexivity.
Qed.

(** X7: the output file is the records written, each as its timestamp
    line (the timestamps through [timestampStr], joined by commas) and
    its text lines, each followed by the separator line.  The separator
    is missing in one case only, after the record that the code after the
    loop writes: when the run raises nothing and ends with caption text
    in the buffer. *)
Theorem output_is_rendered_records (lines : list string) (ts0 : option F) :
  exists blocks,
    mapM render_record (emitted (fst (adjustSbv lines ts0))) = Ok blocks /\
    match snd (adjustSbv lines ts0), captions (fst (adjustSbv lines ts0)) with
    | None, _ :: _ =>
        fout (fst (adjustSbv lines ts0)) ++ [nl] = separated blocks
    | _, _ => fout (fst (adjustSbv lines ts0)) = separated blocks
    end.
Proof.
  unfold adjustSbv.
  destruct (loop lines (init ts0)) as [st e] eqn:El.
  destruct (loop_rendered lines (init ts0) st e [] eq_refl eq_refl El)
    as (blocks & Hr & Hf).
  destruct e as [x|]; simpl; [eauto|].
  destruct (finish st) as [st'|x] eqn:Ef; simpl; [|eauto].
  pose proof (finish_captions st st' Ef) as Hc.
  apply finish_writes in Ef
    as [[Hn ->]|(Hn & tm & strs & Hm & He & Hf')].
  - rewrite Hn. eauto.
  - exists (blocks ++
              [(join (String timeSep EmptyString) strs ++ nl)%string
                 :: captions st]).
    split.
    + rewrite He. apply mapM_snoc; [exact Hr|].
      unfold render_record; simpl. rewrite Hm. reflexivity.
    + rewrite Hc. destruct (captions st) as [|c cs] eqn:Ec; [congruence|].
      rewrite Hf', Hf, separated_snoc, <- !app_assoc. reflexivity.
Qed.

(** ** The first metadata line *)

Lemma split_no_sep (sep : ascii) (s : string) :
  str_mem sep s = false -> split sep s = [s].
Proof.
  unfold split. induction s as [|c s IH]; simpl; [reflexivity|].
  intros Hm. apply orb_false_iff in Hm as [Hc Hm].
  specialize (IH Hm). destruct (split_on sep s) as [h t].
  rewrite Ascii.eqb_sym in Hc. rewrite Ascii.eqb_sym, Hc.
  injection IH as -> ->. reflexivity.
Qed.

(** The state in front of the first metadata line. *)
Lemma loop_before_metadata (pre : list string) (ts0 : option F) :
  no_metadata pre ->
  exists h,
    loop pre (init ts0) =
    (mkState h None ts0 [] (caption_text pre) [] [], None).
Proof.
  intros Hn. rewrite (loop_no_metadata pre (init ts0) Hn). simpl.
  eauto.
Qed.

(** X8: the first metadata line decides the encoding, Dual when it has
    exactly two comma-separated fields and Single otherwise, and the
    offset, its first timestamp minus the target start time.  With an
    empty caption buffer nothing is written, and the pending boundary is
    the shifted first timestamp under Single encoding and stays empty
    under Dual encoding. *)
Theorem first_metadata_detects
    (pre : list string) (ln : string) (ts0 : option F)
    (t0 : F) (more : list F) :
  no_metadata pre -> caption_text pre = [] ->
  classify ln = Metadata ->
  mapM timestamp (split timeSep ln) = Ok (t0 :: more) ->
  exists st,
    loop (pre ++ [ln]) (init ts0) = (st, None) /\
    isSbv st = Some (List.length (t0 :: more) =? 2)%nat /\
    ts st = match ts0 with
            | Some t => Some (fsub t0 t)
            | None => None
            end /\
    times st = (if (List.length (t0 :: more) =? 2)%nat then []
                else [fsub t0 (single_offset t0 ts0)]) /\
    fout st = [].
Proof.
  intros Hn Hc Hm Ht.
  destruct (loop_before_metadata pre ts0 Hn) as [h Hl].
  rewrite loop_app, Hl, Hc. simpl. unfold step; simpl.
  rewrite (metadata_not_header ln Hm), andb_false_r, Hm.
  unfold fetch_times, flush; simpl. rewrite Ht; simpl.
  unfold single_offset.
  destruct ts0 as [t|]; simpl;
    destruct (List.length more =? 1)%nat; simpl;
    eexists; repeat split; reflexivity.
Qed.

(** X9: when a field of the first metadata line is no timestamp, as in
    a caption of one word that starts with a digit, the run ends there
    with the exception and nothing is written. *)
Theorem first_metadata_malformed
    (pre : list string) (ln : string) (post : list string)
    (ts0 : option F) :
  no_metadata pre ->
  classify ln = Metadata ->
  raises (mapM timestamp (split timeSep ln)) ->
  exists st e,
    adjustSbv (pre ++ ln :: post) ts0 = (st, Some e) /\
    fout st = [] /\ emitted st = [].
Proof.
  intros Hn Hm [e He]. unfold adjustSbv.
  destruct (loop_before_metadata pre ts0 Hn) as [h Hl].
  rewrite loop_app, Hl. simpl. unfold step; simpl.
  rewrite (metadata_not_header ln Hm), andb_false_r, Hm.
  unfold fetch_times; simpl. rewrite He; simpl.
  eexists; eexists; repeat split; reflexivity.
Qed.

(** X10: under Dual encoding, met with no caption text in front of the
    first metadata line, the first pair is not kept, and the second
    metadata line of the input fails the assertion on the pending pair:
    the run ends with [AssertionError] and nothing is written. *)
Theorem dual_second_metadata_raises
    (pre : list string) (ln1 : string) (mid : list string) (ln2 : string)
    (post : list string) (ts0 : option F) (a b : F) (tn2 : list F) :
  no_metadata pre -> caption_text pre = [] ->
  classify ln1 = Metadata ->
  mapM timestamp (split timeSep ln1) = Ok [a; b] ->
  no_metadata mid ->
  classify ln2 = Metadata ->
  mapM timestamp (split timeSep ln2) = Ok tn2 ->
  exists st,
    adjustSbv (pre ++ ln1 :: mid ++ ln2 :: post) ts0
    = (st, Some AssertionError) /\
    fout st = [] /\ emitted st = [].
Proof.
  intros Hn Hc Hm1 Ht1 Hmid Hm2 Ht2. unfold adjustSbv.
  destruct (loop_before_metadata pre ts0 Hn) as [h Hl].
  rewrite loop_app, Hl, Hc. simpl. unfold step at 1; simpl.
  rewrite (metadata_not_header ln1 Hm1), andb_false_r, Hm1.
  unfold fetch_times, flush; simpl. rewrite Ht1; simpl.
  assert (Hs : forall o,
    exists st,
      (let (st0, o0) :=
         loop (mid ++ ln2 :: post)
           (mkState false (Some true) o [] [] [] []) in
       match o0 with
       | Some e => (st0, Some e)
       | None => match finish st0 with
                 | Ok st' => (st', None)
                 | Raise e => (st0, Some e)
                 end
       end) = (st, Some AssertionError) /\ fout st = [] /\ emitted st = []).
  { intros o. rewrite loop_app, (loop_no_metadata mid _ Hmid). simpl.
    unfold step; simpl. rewrite Hm2.
    unfold fetch_times; simpl. rewrite Ht2; simpl.
    eexists; repeat split; reflexivity. }
  destruct ts0 as [t|]; simpl; apply Hs.
Qed.

(** ** A field that is no number *)

(** X11: [timestamp] raises when one of the colon-separated fields is no
    number, wherever the field is. *)
Theorem timestamp_field_not_number (s t : string) :
  In t (split ":" s) -> raises (float_of_str t) -> raises (timestamp s).
Proof.
  intros Hin Hr. unfold timestamp.
  apply (timestamp_loop_raises _ t); [|exact Hr].
  apply in_rev in Hin. exact Hin.
Qed.

(** ** Well-formed single-encoded input *)

Lemma filter_all_text (l : list string) :
  Forall (fun c => classify c = Text) l -> filter is_text l = l.
Proof.
  induction 1 as [|c l Hc _ IH]; simpl; [reflexivity|].
  unfold is_text at 1. rewrite Hc, IH. reflexivity.
Qed.

Lemma last_cons_default {A : Type} (l : list A) (x d : A) :
  last (x :: l) d = last l x.
Proof.
  revert x d; induction l as [|y l IH]; intros x d; [reflexivity|].
  change (last (x :: y :: l) d) with (last (y :: l) d).
  rewrite (IH y d), (IH y x). reflexivity.
Qed.

Lemma text_no_metadata (l : list string) :
  Forall (fun c => classify c = Text) l -> no_metadata l.
Proof.
  unfold no_metadata. induction 1 as [|c l Hc _ IH]; constructor;
    [congruence | exact IH].
Qed.

(** A metadata line met under Single encoding with one timestamp pending
    and text buffered, and the caption lines after it. *)
Lemma single_block_step (b : sblock F) (st : state F) (a : F) :
  isHdr st = false -> isSbv st = Some false -> times st = [a] ->
  captions st <> [] ->
  wf_sblock b ->
  printable a -> printable (fsub (b_time b) (ts_or_0 (ts st))) ->
  exists st',
    loop (b_line b :: b_text b) st = (st', None) /\
    isHdr st' = false /\ isSbv st' = Some false /\ ts st' = ts st /\
    times st' = [fsub (b_time b) (ts_or_0 (ts st))] /\
    captions st' = b_text b /\
    emitted st' =
      emitted st ++
      [mkRecord [a; fsub (b_time b) (ts_or_0 (ts st))] (captions st)].
Proof.
  intros Hh Hs Ht Hc (Hm & _ & Hp & Hn & Htxt) [sa Ha] [sb Hb].
  simpl loop. unfold step. rewrite Hh, Hm. simpl.
  unfold fetch_times; simpl. rewrite Hs, Ht; simpl. rewrite Hp; simpl.
  unfold flush, write_times; simpl.
  destruct (captions st) as [|c cs] eqn:Ec; [congruence|].
  simpl. rewrite Ha, Hb; simpl.
  rewrite (loop_no_metadata (b_text b) _ (text_no_metadata _ Htxt)).
  simpl. rewrite (filter_all_text _ Htxt).
  eexists; repeat split; reflexivity.
Qed.

Lemma single_blocks_run (bs : list (sblock F)) (st : state F) (a : F) :
  isHdr st = false -> isSbv st = Some false -> times st = [a] ->
  captions st <> [] ->
  Forall wf_sblock bs ->
  printable a ->
  Forall (fun b => printable (fsub (b_time b) (ts_or_0 (ts st)))) bs ->
  printable
    (fadd (last (map (fun b => fsub (b_time b) (ts_or_0 (ts st))) bs) a)
       (of_int 5)) ->
  exists st1 st2,
    loop (single_stream bs) st = (st1, None) /\
    finish st1 = Ok st2 /\
    emitted st2 =
      emitted st ++
      single_records a (captions st)
        (map (fun b => (fsub (b_time b) (ts_or_0 (ts st)), b_text b)) bs).
Proof.
  revert st a; induction bs as [|b bs IH];
    intros st a Hh Hs Ht Hc Hwf Hpa Hpb Hpl.
  - simpl in *. exists st. unfold finish, write_times.
    destruct (captions st) as [|c cs] eqn:Ec; [congruence|].
    rewrite Ht; simpl.
    destruct Hpa as [sa Ha]. destruct Hpl as [sl Hl].
    rewrite Ha, Hl; simpl.
    eexists; repeat split; reflexivity.
  - inversion Hwf as [|? ? Hwb Hwbs]; subst.
    inversion Hpb as [|? ? Hp1 Hp2]; subst.
    destruct (single_block_step b st a Hh Hs Ht Hc Hwb Hpa Hp1)
      as (st' & Hl' & Hh' & Hs' & Hts' & Ht' & Hc' & He').
    assert (Hn : captions st' <> [])
      by (rewrite Hc'; destruct Hwb as (_ & _ & _ & Hn & _); exact Hn).
    destruct (IH st' (fsub (b_time b) (ts_or_0 (ts st))) Hh' Hs' Ht' Hn Hwbs)
      as (st1 & st2 & E1 & E2 & E3).
    + exact Hp1.
    + rewrite Hts'. exact Hp2.
    + rewrite Hts'. rewrite map_cons, last_cons_default in Hpl. exact Hpl.
    + exists st1, st2. repeat split; [|exact E2|].
      * change (single_stream (b :: bs))
          with ((b_line b :: b_text b) ++ single_stream bs).
        rewrite loop_app, Hl'. exact E1.
      * rewrite E3, He', Hc', Hts', <- app_assoc. reflexivity.
Qed.

(** The first timestamp line of a single-encoded input. *)
Lemma single_first_step (b0 : sblock F) (ts0 : option F) :
  wf_sblock b0 ->
  step (b_line b0) (init ts0) =
  Ok (mkState false (Some false)
        (match ts0 with
         | Some t => Some (fsub (b_time b0) t)
         | None => None
         end)
        [fsub (b_time b0) (single_offset (b_time b0) ts0)] [] [] []).
Proof.
  intros (Hm & Hsep & Ht & _). unfold step, init. simpl.
  rewrite (metadata_not_header _ Hm), Hm.
  unfold fetch_times, flush, single_offset. simpl.
  rewrite (split_no_sep _ _ Hsep). simpl. rewrite Ht. simpl.
  destruct ts0; reflexivity.
Qed.

(** The run on a well-formed single-encoded input. *)
Lemma single_stream_run (b0 : sblock F) (bs : list (sblock F))
    (ts0 : option F) :
  Forall wf_sblock (b0 :: bs) ->
  Forall
    (fun b => printable (fsub (b_time b) (single_offset (b_time b0) ts0)))
    (b0 :: bs) ->
  printable
    (fadd
       (last
          (map (fun b => fsub (b_time b) (single_offset (b_time b0) ts0)) bs)
          (fsub (b_time b0) (single_offset (b_time b0) ts0)))
       (of_int 5)) ->
  exists st,
    adjustSbv (single_stream (b0 :: bs)) ts0 = (st, None) /\
    emitted st =
      single_records
        (fsub (b_time b0) (single_offset (b_time b0) ts0)) (b_text b0)
        (map (fun b =>
                (fsub (b_time b) (single_offset (b_time b0) ts0), b_text b))
           bs).
Proof.
  intros Hwf Hp Hl.
  inversion Hwf as [|? ? Hw0 Hwbs]; subst.
  inversion Hp as [|? ? Hp0 Hpbs]; subst.
  pose proof (single_first_step b0 ts0 Hw0) as Hstep.
  destruct Hw0 as (Hm & Hsep & Ht & Hn & Htxt).
  unfold adjustSbv.
  change (single_stream (b0 :: bs))
    with (b_line b0 :: (b_text b0 ++ single_stream bs)).
  simpl loop. rewrite Hstep.
  rewrite loop_app, (loop_no_metadata (b_text b0) _ (text_no_metadata _ Htxt)).
  simpl. rewrite (filter_all_text _ Htxt).
  match goal with
  | |- context [loop (single_stream bs) ?st] =>
      destruct (single_blocks_run bs st
                  (fsub (b_time b0) (single_offset (b_time b0) ts0)))
        as (st1 & st2 & E1 & E2 & E3); simpl; auto
  end.
  rewrite E1, E2. exists st2. split; [reflexivity | exact E3].
Qed.

(** X12: a well-formed single-encoded input, timestamp lines each
    followed by caption lines, gives one record per timestamp line: its
    caption lines, from its shifted timestamp to the shifted timestamp of
    the next line, and for the last one to 5 seconds later. *)
Theorem single_stream_records (b0 : sblock F) (bs : list (sblock F))
    (ts0 : option F) :
  Forall wf_sblock (b0 :: bs) ->
  Forall
    (fun b => printable (fsub (b_time b) (single_offset (b_time b0) ts0)))
    (b0 :: bs) ->
  printable
    (fadd
       (last
          (map (fun b => fsub (b_time b) (single_offset (b_time b0) ts0)) bs)
          (fsub (b_time b0) (single_offset (b_time b0) ts0)))
       (of_int 5)) ->
  exists st,
    adjustSbv (single_stream (b0 :: bs)) ts0 = (st, None) /\
    emitted st =
      single_records
        (fsub (b_time b0) (single_offset (b_time b0) ts0)) (b_text b0)
        (map (fun b =>
                (fsub (b_time b) (single_offset (b_time b0) ts0), b_text b))
           bs).
Proof.
  exact (single_stream_run b0 bs ts0).
Qed.

End Realigner.

(** * The text [timestampStr] writes *)

Section Codec.

Local Open Scope Q_scope.

(** ** Integers as decimal text *)

Lemma digits_val_acc (d : Decimal.uint) (acc : positive) :
  Literal.digits_val (Zpos acc) (NilEmpty.string_of_uint d)
  = Some (Zpos (Pos.of_uint_acc d acc)).
Proof.
  revert acc; induction d; intros acc;
    cbn [NilEmpty.string_of_uint Literal.digits_val Pos.of_uint_acc];
    try reflexivity;
    match goal with
    | |- context [Literal.digit_val ?c] =>
        let v := eval vm_compute in (Literal.digit_val c) in
        change (Literal.digit_val c) with v
    end;
    cbv beta iota; rewrite <- IHd; f_equal; lia.
Qed.

Lemma digits_val_uint (d : Decimal.uint) :
  Literal.digits_val 0 (NilEmpty.string_of_uint d)
  = Some (Z.of_N (Pos.of_uint d)).
Proof.
  induction d;
    cbn [NilEmpty.string_of_uint Literal.digits_val Pos.of_uint];
    try reflexivity;
    match goal with
    | |- context [Literal.digit_val ?c] =>
        let v := eval vm_compute in (Literal.digit_val c) in
        change (Literal.digit_val c) with v
    end;
    cbv beta iota;
    [exact IHd | apply (digits_val_acc d)..].
Qed.

Lemma all_digits_uint (d : Decimal.uint) :
  all_digits (NilEmpty.string_of_uint d) = true.
Proof.
  induction d; simpl; try reflexivity; exact IHd.
Qed.

Lemma str_of_int_pos (p : positive) :
  str_of_int (Zpos p) = NilEmpty.string_of_uint (Pos.to_uint p).
Proof.
  unfold str_of_int. simpl.
  pose proof (DecimalPos.Unsigned.to_uint_nonnil p) as Hn.
  destruct (Pos.to_uint p); [congruence | reflexivity..].
Qed.

Lemma str_of_int_digits (n : Z) :
  (0 <= n)%Z ->
  all_digits (str_of_int n) = true /\
  str_of_int n <> EmptyString /\
  Literal.digits_val 0 (str_of_int n) = Some n.
Proof.
  intros Hn. destruct n as [|p|p]; [| |lia].
  - split; [reflexivity | split; [discriminate | reflexivity]].
  - rewrite str_of_int_pos. split; [|split].
    + apply all_digits_uint.
    + pose proof (DecimalPos.Unsigned.to_uint_nonnil p) as Hnil.
      destruct (Pos.to_uint p); [congruence | discriminate..].
    + rewrite digits_val_uint, DecimalPos.Unsigned.of_to. reflexivity.
Qed.

Lemma all_digits_no (c : ascii) (s : string) :
  is_dec_digit c = false -> all_digits s = true -> str_mem c s = false.
Proof.
  intros Hc. induction s as [|a s IH]; simpl; [reflexivity|].
  intros Ha. apply andb_true_iff in Ha as [Ha Hs].
  rewrite (IH Hs), orb_false_r.
  destruct (Ascii.eqb_spec a c) as [->|]; [congruence | reflexivity].
Qed.

(** ** The bounded fields, by enumeration *)

Lemma forall_below (P : Z -> bool) (n : nat) :
  forallb P (map Z.of_nat (seq 0 n)) = true ->
  forall z, (0 <= z < Z.of_nat n)%Z -> P z = true.
Proof.
  intros Hall z Hz. rewrite forallb_forall in Hall. apply Hall.
  apply in_map_iff. exists (Z.to_nat z). split; [lia|].
  apply in_seq. lia.
Qed.

Lemma split_app_sep (sep : ascii) (a b : string) :
  str_mem sep a = false ->
  split sep (a ++ String sep b) = a :: split sep b.
Proof.
  unfold split. induction a as [|c a IH]; simpl.
  - intros _. destruct (split_on sep b) as [h t].
    rewrite Ascii.eqb_refl. reflexivity.
  - intros Hm. apply orb_false_iff in Hm as [Hc Hm].
    specialize (IH Hm).
    destruct (split_on sep (a ++ String sep b)) as [h t].
    destruct (split_on sep b) as [h' t'].
    rewrite Hc. injection IH as -> ->. reflexivity.
Qed.

Lemma seconds_texts_ok :
  forall sec, (0 <= sec < 60)%Z -> seconds_text_ok sec = true.
Proof.
  apply (forall_below seconds_text_ok 60). vm_compute. reflexivity.
Qed.

Lemma ms_texts_ok :
  forall ms, (0 <= ms < 1000)%Z -> ms_text_ok ms = true.
Proof.
  apply (forall_below ms_text_ok 1000). vm_compute. reflexivity.
Qed.

Lemma digits_read_spec (txt : string) (v : Z) :
  digits_read txt v = true ->
  all_digits txt = true /\ txt <> EmptyString /\
  Literal.digits_val 0 txt = Some v.
Proof.
  unfold digits_read. intros Hr.
  apply andb_true_iff in Hr as [Hr Hv].
  apply andb_true_iff in Hr as [Hd Hn].
  split; [exact Hd|]. split.
  - intros ->. discriminate Hn.
  - destruct (Literal.digits_val 0 txt) as [x|]; [|discriminate].
    apply Z.eqb_eq in Hv. subst. reflexivity.
Qed.

(** ** The number the text denotes *)

Lemma Qmake_thousandths (a b : Z) :
  Qmake (a * 1000 + b) 1000 == inject_Z a + inject_Z b * (1 # 1000).
Proof.
  unfold Qeq, Qplus, Qmult, inject_Z. simpl. lia.
Qed.

Lemma sixty_sixty (ss : Z) :
  inject_Z ss ==
  inject_Z (ss mod 60) +
  60 * (inject_Z (ss / 60 mod 60) + 60 * inject_Z (ss / 60 / 60)).
Proof.
  pose proof (Z.div_mod ss 60 ltac:(lia)) as H1.
  pose proof (Z.div_mod (ss / 60) 60 ltac:(lia)) as H2.
  set (a := (ss mod 60)%Z) in *.
  set (b := (ss / 60 mod 60)%Z) in *.
  set (c := (ss / 60 / 60)%Z) in *.
  assert (E : ss = (a + 60 * (b + 60 * c))%Z) by lia.
  rewrite E. clear.
  repeat (rewrite inject_Z_plus || rewrite inject_Z_mult).
  change (inject_Z 60) with 60. ring.
Qed.

Lemma digits_text_value (txt : string) (v : Z) :
  all_digits txt = true -> txt <> EmptyString ->
  Literal.digits_val 0 txt = Some v ->
  Literal.parse_decimal txt = Some (inject_Z v).
Proof.
  intros Hd Hn Hv. unfold Literal.parse_decimal.
  rewrite (split_no_sep "." _ (all_digits_no "." _ eq_refl Hd)).
  destruct txt; [congruence|]. cbn [is_empty]. rewrite Hv. reflexivity.
Qed.

Lemma decimal_text_value (a b : string) (va vb : Z) :
  digits_read a va = true -> digits_read b vb = true ->
  str_mem ":" (a ++ String "." b) = false /\
  Literal.parse_decimal (a ++ String "." b) =
  Some (Qred (Qmake (va * 10 ^ Z.of_nat (String.length b) + vb)
                (Z.to_pos (10 ^ Z.of_nat (String.length b))))).
Proof.
  intros Ha Hb.
  destruct (digits_read_spec a va Ha) as (Hda & Hna & Hva).
  destruct (digits_read_spec b vb Hb) as (Hdb & Hnb & Hvb).
  split.
  - pose proof (all_digits_no ":" a eq_refl Hda) as Hca.
    pose proof (all_digits_no ":" b eq_refl Hdb) as Hcb.
    clear - Hca Hcb. induction a as [|c a IH]; simpl in *.
    + exact Hcb.
    + apply orb_false_iff in Hca as [Hc Hca]. rewrite Hc. exact (IH Hca).
  - unfold Literal.parse_decimal.
    rewrite (split_app_sep "." _ _ (all_digits_no "." _ eq_refl Hda)),
      (split_no_sep "." _ (all_digits_no "." _ eq_refl Hdb)).
    destruct a; [congruence|].
    cbn [is_empty andb]. rewrite Hva, Hvb. reflexivity.
Qed.

(** The text for [ss] whole seconds and [ms] milliseconds denotes the
    seconds plus the milliseconds as the field filled on the right shows
    them. *)
Lemma time_text_value (ss ms : Z) :
  (0 <= ss)%Z -> (0 <= ms < 1000)%Z ->
  exists q,
    text_value (time_text ss ms) = Some q /\
    q == inject_Z ss + inject_Z (filled_ms ms) * (1 # 1000).
Proof.
  intros Hss Hms.
  assert (Hh : (0 <= ss / 60 / 60)%Z)
    by (apply Z.div_pos; [apply Z.div_pos|]; lia).
  destruct (str_of_int_digits _ Hh) as (Hhd & Hhn & Hhv).
  destruct (digits_read_spec _ _
              (seconds_texts_ok (ss / 60 mod 60)
                 (Z.mod_pos_bound _ 60 eq_refl)))
    as (Hmd & Hmn & Hmv).
  pose proof (seconds_texts_ok (ss mod 60) (Z.mod_pos_bound _ 60 eq_refl))
    as Hs.
  pose proof (ms_texts_ok ms Hms) as Hf.
  unfold seconds_text_ok in Hs. unfold ms_text_ok in Hf.
  apply andb_true_iff in Hf as [Hf Hl]. apply Nat.eqb_eq in Hl.
  destruct (decimal_text_value _ _ _ _ Hs Hf) as (Hsc & Hsv).
  unfold text_value.
  change (time_text ss ms)
    with (str_of_int (ss / 60 / 60) ++
          String ":" (fmt_fill_left 2 (ss / 60 mod 60) ++
          String ":" (fmt_fill_left 2 (ss mod 60) ++
                      String "." (fmt_fill_right 3 ms))))%string.
  rewrite (split_app_sep ":" _ _ (all_digits_no ":" _ eq_refl Hhd)),
    (split_app_sep ":" _ _ (all_digits_no ":" _ eq_refl Hmd)),
    (split_no_sep ":" _ Hsc).
  cbn [decimals].
  rewrite (digits_text_value _ _ Hhd Hhn Hhv),
    (digits_text_value _ _ Hmd Hmn Hmv), Hsv, Hl.
  eexists. split; [reflexivity|].
  unfold sexagesimal. cbn [horner].
  change (10 ^ Z.of_nat 3)%Z with 1000%Z.
  change (Z.to_pos 1000) with 1000%positive.
  rewrite Qred_correct, Qmake_thousandths, (sixty_sixty ss). ring.
Qed.

End Codec.

Section CodecText.

Context {F : Type} {PF : PyFloat F}.

Local Open Scope Q_scope.

(** X15: the text [timestampStr] writes for a time [t >= 0] with whole
    seconds [ss = int(t)] and millisecond count [ms], [0 <= ms < 1000],
    denotes [ss] seconds plus the milliseconds as the field filled on
    the right shows them: [ms] itself when it is 0 or at least 100, ten
    times [ms] when it has two digits and a hundred times when it has
    one. *)
Theorem timestampStr_denotes (t : F) (ss ms : Z) :
  fge0 t = true ->
  ftrunc t = Ok ss ->
  ftrunc (fmul (fsub t (of_int ss)) (of_int 1000)) = Ok ms ->
  (0 <= ss)%Z -> (0 <= ms < 1000)%Z ->
  exists s q,
    timestampStr t = Ok s /\
    text_value s = Some q /\
    q == inject_Z ss + inject_Z (filled_ms ms) * (1 # 1000).
Proof.
  intros Hge Hss Hms Hs0 Hm0.
  destruct (time_text_value ss ms Hs0 Hm0) as (q & Hq & Hv).
  exists (time_text ss ms), q. split; [|split; [exact Hq | exact Hv]].
  unfold timestampStr. rewrite Hge. cbn [assert bind].
  rewrite Hss. cbn [bind]. rewrite Hms. cbn [bind]. reflexivity.
Qed.

End CodecText.

(** * The codec on binary64 floats *)

Section CodecBinary64.

Local Open Scope Q_scope.

Lemma same_float_eq (x y : spec_float) : same_float x y = true -> x = y.
Proof.
  destruct x as [a|a| |a m e], y as [b|b| |b n f]; simpl;
    try discriminate; try reflexivity.
  - intros E. apply Bool.eqb_prop in E. congruence.
  - intros E. apply Bool.eqb_prop in E. congruence.
  - intros E. apply andb_prop in E as [E E3]. apply andb_prop in E as [E1 E2].
    apply Bool.eqb_prop in E1. apply Pos.eqb_eq in E2. apply Z.eqb_eq in E3.
    congruence.
Qed.

(** X18: the examples in the docstrings of [timestamp] and of
    [timestampStr] hold. *)
Theorem docstring_examples :
  timestamp "12.25" = Ok (Binary64.of_Q 12.25) /\
  timestamp "01:3:5.25" = Ok (Binary64.of_Q 3785.25) /\
  timestampStr (Binary64.of_Q 12.25) = Ok "0:00:12.250"%string /\
  timestampStr (Binary64.of_Q 3785.25) = Ok "1:03:05.250"%string.
Proof.
  repeat split; vm_compute; reflexivity.
Qed.

(** X19: every whole number of seconds below one hour is written as
    [0:mm:ss.000], and that text is read as the same number: on them the
    codec loses nothing. *)
Theorem whole_seconds_roundtrip (n : Z) :
  (0 <= n < 3600)%Z ->
  timestampStr (of_int (F:=spec_float) n) = Ok (time_text n 0) /\
  timestamp (time_text n 0) = Ok (of_int (F:=spec_float) n).
Proof.
  intros Hn.
  assert (H : whole_second_ok n = true).
  { revert n Hn. apply (forall_below whole_second_ok 3600).
    vm_compute. reflexivity. }
  unfold whole_second_ok in H.
  destruct (timestampStr (of_int n)) as [s|]; [|discriminate].
  destruct (timestamp (time_text n 0)) as [x|]; [|discriminate].
  apply andb_prop in H as [H1 H2].
  apply String.eqb_eq in H1. apply same_float_eq in H2. subst. split; reflexivity.
Qed.

(** X20 (defect of the code): the milliseconds are cut, not rounded, from
    a product that is not exact: the text 0:00:04.350 is read as the
    float nearest to 4.35, which is below it, and written as
    0:00:04.349.  The millisecond field has three digits here: the fill
    of the field plays no part. *)
Theorem milliseconds_cut :
  timestamp "0:00:04.350" = Ok (Binary64.of_Q 4.35) /\
  Binary64.to_Q (Binary64.of_Q 4.35) < 4.35 /\
  ftrunc (fmul (fsub (Binary64.of_Q 4.35) (of_int 4)) (of_int 1000))
  = Ok 349%Z /\
  reprint (F:=spec_float) "0:00:04.350" = Ok "0:00:04.349"%string.
Proof.
  repeat split; vm_compute; reflexivity.
Qed.

(** X21: below one second, a text with a millisecond field of three
    digits and no leading zero is written again as it is. *)
Theorem subsecond_millis_kept (ms : Z) :
  (100 <= ms < 1000)%Z ->
  reprint (F:=spec_float) (time_text 0 ms) = Ok (time_text 0 ms).
Proof.
  intros Hm.
  assert (H : millis_ok ms = true).
  { assert (H0 : (0 <= ms < Z.of_nat 1000)%Z) by lia.
    revert ms H0 Hm. intros ms H0 _. revert ms H0.
    apply (forall_below millis_ok 1000). vm_compute. reflexivity. }
  unfold millis_ok in H.
  destruct (Z.ltb_spec ms 100) as [Hlt|_]; [lia|]. simpl in H.
  destruct (reprint (time_text 0 ms)) as [s|]; [|discriminate].
  apply String.eqb_eq in H. subst. reflexivity.
Qed.

End CodecBinary64.

(** * The output file name *)

Section OutputName.

Lemma str_take_drop (n : nat) (s : string) :
  (str_take n s ++ str_drop n s)%string = s.
Proof.
  revert s; induction n as [|n IH]; intros s; destruct s as [|a s];
    simpl; try reflexivity.
  rewrite IH. reflexivity.
Qed.

Lemma splitext_join (p : string) :
  (fst (splitext p) ++ snd (splitext p))%string = p.
Proof.
  unfold splitext.
  destruct ((rfind "/" p <? rfind "." p) && has_non_dot _); simpl.
  - apply str_take_drop.
  - induction p as [|a p IH]; simpl; [reflexivity | rewrite IH; reflexivity].
Qed.

Lemma append_cancel (a x y : string) :
  (a ++ x)%string = (a ++ y)%string -> x = y.
Proof.
  induction a as [|c a IH]; simpl; intros E; [exact E|].
  injection E as E. exact (IH E).
Qed.

Lemma append_length (a b : string) :
  String.length (a ++ b) = (String.length a + String.length b)%nat.
Proof.
  induction a as [|c a IH]; simpl; [reflexivity | rewrite IH; reflexivity].
Qed.

Lemma append_assoc (a b c : string) :
  ((a ++ b) ++ c)%string = (a ++ (b ++ c))%string.
Proof.
  induction a as [|x a IH]; simpl; [reflexivity | rewrite IH; reflexivity].
Qed.

(** X16: the output file is never named as the input file, whatever the
    name: writing the output does not replace the input. *)
Theorem output_name_differs (ifname : string) : output_name ifname <> ifname.
Proof.
  unfold output_name. pose proof (splitext_join ifname) as Hj.
  destruct (splitext ifname) as [root ext]. simpl in Hj.
  destruct (String.eqb (lower ext) ".sbv") eqn:El; intros E.
  - rewrite <- Hj, append_assoc in E.
    apply append_cancel in E.
    apply (f_equal String.length) in E. rewrite append_length in E.
    simpl in E. lia.
  - rewrite <- Hj in E. apply append_cancel in E. subst ext.
    discriminate El.
Qed.

End OutputName.

(** * The further theorems at concrete inputs *)

Section MoreWitnesses.

Local Open Scope Q_scope.

Lemma header_lines_ignored_witness :
  Forall (fun ln => startswith ln hdrMark = true) [line "# a"; line "#b"] /\
  adjustSbv (F:=spec_float) ([line "# a"; line "#b"] ++ single_input) None
  = adjustSbv single_input None.
Proof.
  assert (Hh : Forall (fun ln => startswith ln hdrMark = true)
                 [line "# a"; line "#b"])
    by (repeat constructor).
  split; [exact Hh|].
  exact (header_lines_ignored _ single_input None Hh).
Defined.

Lemma blank_line_ignored_witness :
  Exists (fun ln => startswith ln hdrMark = false)
    [line "0:00"; line "Hello"] /\
  classify nl = Blank /\
  adjustSbv (F:=spec_float)
    ([line "0:00"; line "Hello"] ++ nl :: [line "0:00:05"; line "World"]) None
  = adjustSbv
      ([line "0:00"; line "Hello"] ++ [line "0:00:05"; line "World"]) None.
Proof.
  assert (Hx : Exists (fun ln => startswith ln hdrMark = false)
                 [line "0:00"; line "Hello"])
    by (left; reflexivity).
  assert (Hb : classify nl = Blank) by reflexivity.
  split; [exact Hx|]. split; [exact Hb|].
  exact (blank_line_ignored _ _ nl None Hx Hb).
Defined.

Lemma encoding_stable_witness :
  isSbv (fst (loop [line "0:00"] (init (F:=spec_float) None))) = Some false /\
  isSbv
    (fst (adjustSbv (F:=spec_float)
            ([line "0:00"] ++ [line "Hello"; line "0:00:05"; line "World"])
            None))
  = Some false.
Proof.
  split; [vm_compute; reflexivity|].
  apply (encoding_stable [line "0:00"] _ None
           (fst (loop [line "0:00"] (init (F:=spec_float) None))));
    vm_compute; reflexivity.
Defined.

Lemma caption_text_kept_witness :
  List.concat
    (map rec_lines (emitted (fst (adjustSbv (F:=spec_float) single_input None))))
  = caption_text single_input.
Proof.
  apply (caption_text_kept single_input None). vm_compute. reflexivity.
Defined.

Lemma first_metadata_detects_witness :
  no_metadata [line "# header"] /\
  caption_text [line "# header"] = [] /\
  classify (line "0:00:10.000,0:00:12.000") = Metadata /\
  exists st,
    loop ([line "# header"] ++ [line "0:00:10.000,0:00:12.000"])
      (init (Some (Binary64.of_Q 0))) = (st, None) /\
    isSbv st = Some (List.length [Binary64.of_Q 10; Binary64.of_Q 12] =? 2)%nat /\
    ts st = Some (fsub (Binary64.of_Q 10) (Binary64.of_Q 0)) /\
    times st = (if (List.length [Binary64.of_Q 10; Binary64.of_Q 12] =? 2)%nat then []
                else [fsub (Binary64.of_Q 10)
                        (single_offset (Binary64.of_Q 10)
                           (Some (Binary64.of_Q 0)))]) /\
    fout st = [].
Proof.
  assert (Hn : no_metadata [line "# header"])
    by (repeat constructor; vm_compute; discriminate).
  assert (Hc : caption_text [line "# header"] = []) by reflexivity.
  assert (Hm : classify (line "0:00:10.000,0:00:12.000") = Metadata)
    by (vm_compute; reflexivity).
  split; [exact Hn|]. split; [exact Hc|]. split; [exact Hm|].
  apply (first_metadata_detects [line "# header"]
           (line "0:00:10.000,0:00:12.000") (Some (Binary64.of_Q 0))
           (Binary64.of_Q 10) [Binary64.of_Q 12] Hn Hc Hm).
  vm_compute. reflexivity.
Defined.

Lemma first_metadata_malformed_witness :
  no_metadata [line "Intro"] /\
  classify (line "2nd") = Metadata /\
  raises (mapM (timestamp (F:=spec_float)) (split timeSep (line "2nd"))) /\
  exists st e,
    adjustSbv (F:=spec_float) ([line "Intro"] ++ line "2nd" :: [line "verse"]) None
    = (st, Some e) /\
    fout st = [] /\ emitted st = [].
Proof.
  assert (Hn : no_metadata [line "Intro"])
    by (repeat constructor; vm_compute; discriminate).
  assert (Hm : classify (line "2nd") = Metadata) by (vm_compute; reflexivity).
  assert (Hr : raises (mapM (timestamp (F:=spec_float)) (split timeSep (line "2nd"))))
    by (exists ValueError; vm_compute; reflexivity).
  split; [exact Hn|]. split; [exact Hm|]. split; [exact Hr|].
  exact (first_metadata_malformed [line "Intro"] (line "2nd") [line "verse"]
           None Hn Hm Hr).
Defined.

Lemma dual_second_metadata_raises_witness :
  exists st,
    adjustSbv (F:=spec_float)
      ([] ++ line "0:00:10.000,0:00:12.000" ::
       [line "Hello"] ++ line "0:00:15.000,0:00:18.000" :: [line "World"])
      (Some (Binary64.of_Q 0))
    = (st, Some AssertionError) /\
    fout st = [] /\ emitted st = [].
Proof.
  apply (dual_second_metadata_raises [] (line "0:00:10.000,0:00:12.000")
           [line "Hello"] (line "0:00:15.000,0:00:18.000") [line "World"]
           (Some (Binary64.of_Q 0)) (Binary64.of_Q 10) (Binary64.of_Q 12)
           (map Binary64.of_Q [15; 18])).
  - constructor.
  - reflexivity.
  - vm_compute; reflexivity.
  - vm_compute; reflexivity.
  - repeat constructor; vm_compute; discriminate.
  - vm_compute; reflexivity.
  - vm_compute; reflexivity.
Defined.

Lemma timestamp_field_not_number_witness :
  In "x"%string (split ":" "1:x:3") /\
  raises (float_of_str (F:=spec_float) "x") /\
  raises (timestamp (F:=spec_float) "1:x:3").
Proof.
  assert (Hi : In "x"%string (split ":" "1:x:3"))
    by (right; left; reflexivity).
  assert (Hr : raises (float_of_str (F:=spec_float) "x"))
    by (exists ValueError; vm_compute; reflexivity).
  split; [exact Hi|]. split; [exact Hr|].
  exact (timestamp_field_not_number "1:x:3" "x" Hi Hr).
Defined.

Lemma scenario_blocks_wf : Forall wf_sblock [hello_block; world_block].
Proof.
  repeat constructor; try (vm_compute; reflexivity);
    try (vm_compute; discriminate).
Qed.

Lemma single_stream_records_witness :
  Forall wf_sblock [hello_block; world_block] /\
  exists st,
    adjustSbv (single_stream [hello_block; world_block]) None = (st, None) /\
    emitted st =
      single_records
        (fsub (b_time hello_block) (single_offset (b_time hello_block) None))
        (b_text hello_block)
        (map (fun b =>
                (fsub (b_time b) (single_offset (b_time hello_block) None),
                 b_text b))
           [world_block]).
Proof.
  split; [exact scenario_blocks_wf|].
  apply (single_stream_records hello_block [world_block] None).
  - exact scenario_blocks_wf.
  - repeat constructor; eexists; vm_compute; reflexivity.
  - eexists; vm_compute; reflexivity.
Defined.

Lemma timestampStr_denotes_witness :
  fge0 (Binary64.of_Q (1 # 16)) = true /\
  ftrunc (Binary64.of_Q (1 # 16)) = Ok 0%Z /\
  ftrunc (fmul (fsub (Binary64.of_Q (1 # 16)) (of_int 0)) (of_int 1000))
  = Ok 62%Z /\
  exists s q,
    timestampStr (Binary64.of_Q (1 # 16)) = Ok s /\
    text_value s = Some q /\
    q == inject_Z 0 + inject_Z (filled_ms 62) * (1 # 1000).
Proof.
  split; [vm_compute; reflexivity|].
  split; [vm_compute; reflexivity|].
  split; [vm_compute; reflexivity|].
  apply (timestampStr_denotes (Binary64.of_Q (1 # 16)) 0 62);
    try (vm_compute; reflexivity); lia.
Defined.

Lemma whole_seconds_roundtrip_witness :
  (0 <= 3599 < 3600)%Z /\
  timestampStr (of_int (F:=spec_float) 3599) = Ok "0:59:59.000"%string /\
  timestamp "0:59:59.000" = Ok (of_int (F:=spec_float) 3599).
Proof.
  split; [lia|].
  apply (whole_seconds_roundtrip 3599). lia.
Defined.

Lemma subsecond_millis_kept_witness :
  (100 <= 570 < 1000)%Z /\
  reprint (F:=spec_float) "0:00:00.570" = Ok "0:00:00.570"%string.
Proof.
  split; [lia|].
  apply (subsecond_millis_kept 570). lia.
Defined.

End MoreWitnesses.
